(** * Financial-report engine: data model, calculators and analyser

    Shallow embedding of [src/core/simple_models.py] and
    [src/core/simple_transforms.py], and of the analysis helpers of the
    exporters.

    Numbers.  The fields typed [float] are embedded twice.

    - In exact arithmetic: an amount is a rational [Q], [+] and [sum] do
      not round, equality of amounts is [Qeq] ([==]).  This embedding
      carries the statements that compare given values, follow one
      guarded division or add non-negative terms, and the evaluations on
      datasets whose amounts are integers (on which binary64 is exact as
      well).
    - In binary64 ([Module Binary64]): an amount is a primitive [float],
      [+] rounds, and [sum] is the interpreter's, in its two versions
      (left to right, and compensated since CPython 3.12).  This
      embedding carries the statements about the same amounts added in a
      different order, where rounding shows.

    An [int] field is a [Z], a [str] a [string] (one [ascii] per
    character), an [Optional[float]] an [option].

    Exceptions.  A function that can raise returns a [result]; [raise]
    carries the exception, [ret] the value. *)

From Stdlib Require Import QArith Qabs ZArith List String Bool Lia Lqa.
From Stdlib Require Import Floats Permutation.
Import ListNotations.

(** A decimal literal in [float_scope] denotes the nearest binary64
    value, as it does in Python. *)
Set Warnings "-inexact-float".

Open Scope string_scope.
Open Scope Z_scope.
Open Scope Q_scope.

(** ** Python runtime fragments used by the two modules *)

Module Py.

(** Pieces of an f-string: literal text, a number printed with [str()],
    a number printed with the format spec [,.2f]. *)
Inductive fragment : Type :=
| Lit (s : string)
| Num (x : Q)
| NumF2 (x : Q).

Definition text := list fragment.

(** A plain string literal used as a message. *)
Definition lit (s : string) : text := [Lit s].

Inductive exn : Type :=
| ValueError (msg : text)
| ZeroDivisionError.

Inductive result (A : Type) : Type :=
| ret (a : A)
| raise (e : exn).

Arguments ret {A} a.
Arguments raise {A} e.

Definition bind {A B : Type} (m : result A) (k : A -> result B) : result B :=
  match m with
  | ret a => k a
  | raise e => raise e
  end.

Definition raises {A : Type} (m : result A) : Prop :=
  exists e, m = raise e.

(** [x < y] on numbers. *)
Definition lt (x y : Q) : bool := negb (Qle_bool y x).

(** [x > y] on numbers. *)
Definition gt (x y : Q) : bool := lt y x.

(** [x / y]: true division raises on a zero divisor. *)
Definition truediv (x y : Q) : result Q :=
  if Qeq_bool y 0 then raise ZeroDivisionError else ret (x / y).

(** [sum(iterable)] in exact arithmetic: accumulation from [0], no
    rounding.  The rounding versions are [Binary64.sum_gauche] and
    [Binary64.sum_compense]. *)
Definition sum (l : list Q) : Q := fold_left Qplus l 0.

(** [max(0, x)]: the first argument is kept unless the second is
    strictly greater. *)
Definition max0 (x : Q) : Q := if gt x 0 then x else 0.

(** [s.startswith(p)]. *)
Definition startswith (s p : string) : bool := String.prefix p s.

(** [c in [c1, c2, ...]] on integers. *)
Definition is_in (c : Z) (l : list Z) : bool := existsb (Z.eqb c) l.

(** Truth value of a number: zero is false. *)
Definition truthy (x : Q) : bool := negb (Qeq_bool x 0).

End Py.

Notation "x <- m ;; k" := (Py.bind m (fun x => k))
  (at level 61, m at next level, right associativity).

(** ** simple_models.py *)

Inductive Sens : Type := DEBIT | CREDIT.

Definition Sens_eqb (a b : Sens) : bool :=
  match a, b with
  | DEBIT, DEBIT | CREDIT, CREDIT => true
  | _, _ => false
  end.

Module LigneCompte.

Record t : Type := mk {
  code_compte : string;
  libelle : string;
  classe : Z;
  sens : Sens;
  montant : Q;
  periode : string
}.

(** [__post_init__]: the three checks, in the order of the source.
    [not code or len(code) < 3]: the empty string is the only falsy one. *)
Definition post_init (self : t) : Py.result unit :=
  if (String.eqb (code_compte self) "" || (String.length (code_compte self) <? 3)%nat)%bool
  then Py.raise (Py.ValueError (Py.lit "Code compte invalide"))
  else if negb ((1 <=? classe self)%Z && (classe self <=? 9)%Z)
  then Py.raise (Py.ValueError (Py.lit "Classe doit être entre 1 et 9"))
  else if Py.lt (montant self) 0
  then Py.raise (Py.ValueError (Py.lit "Montant doit être positif"))
  else Py.ret tt.

(** The dataclass constructor: store the fields, then run [__post_init__]. *)
Definition new (code lib : string) (cl : Z) (s : Sens) (m : Q) (per : string)
  : Py.result t :=
  let self := mk code lib cl s m per in
  _ <- post_init self ;; Py.ret self.

End LigneCompte.

Module JeuDonnees.

Record t : Type := mk {
  lignes : list LigneCompte.t;
  periode : string;
  entreprise : string
}.

(** The generator [l.montant for l in lignes if cond(l)]. *)
Definition montants (cond : LigneCompte.t -> bool) (ls : list LigneCompte.t)
  : list Q :=
  map LigneCompte.montant (filter cond ls).

Definition est (s : Sens) (l : LigneCompte.t) : bool :=
  Sens_eqb (LigneCompte.sens l) s.

Definition total_debit (ls : list LigneCompte.t) : Q :=
  Py.sum (montants (est DEBIT) ls).

Definition total_credit (ls : list LigneCompte.t) : Q :=
  Py.sum (montants (est CREDIT) ls).

(** The balance tolerance, the literal [0.01]. *)
Definition epsilon : Q := 1 # 100.

Definition post_init (self : t) : Py.result unit :=
  match lignes self with
  | [] => Py.raise (Py.ValueError
            (Py.lit "Le jeu de données doit contenir au moins une ligne"))
  | _ :: _ =>
      let total_debit := total_debit (lignes self) in
      let total_credit := total_credit (lignes self) in
      if Py.gt (Qabs (total_debit - total_credit)) epsilon
      then Py.raise (Py.ValueError
             [Py.Lit "Déséquilibre: Débit="; Py.Num total_debit;
              Py.Lit ", Crédit="; Py.Num total_credit])
      else Py.ret tt
  end.

Definition new (ls : list LigneCompte.t) (per ent : string) : Py.result t :=
  let self := mk ls per ent in
  _ <- post_init self ;; Py.ret self.

Definition get_total_classe (self : t) (c : Z) : Q :=
  Py.sum (montants (fun l => (LigneCompte.classe l =? c)%Z) (lignes self)).

Definition get_total_sens (self : t) (s : Sens) : Q :=
  Py.sum (montants (est s) (lignes self)).

End JeuDonnees.

Module BilanFonctionnel.

Record t : Type := mk {
  emplois_stables : Q;
  ressources_stables : Q;
  frng : Q;
  actifs_circulants : Q;
  passifs_circulants : Q;
  bfr : Q;
  tresorerie_active : Q;
  tresorerie_passive : Q;
  tresorerie_nette : Q;
  periode : string
}.

End BilanFonctionnel.

Module BilanFinancier.

Record t : Type := mk {
  immobilisations_nettes : Q;
  stocks : Q;
  creances_clients : Q;
  autres_creances : Q;
  tresorerie_active : Q;
  total_actif : Q;
  capital_social : Q;
  reserves : Q;
  resultat_net : Q;
  capitaux_propres : Q;
  dettes_financieres_lt : Q;
  dettes_fournisseurs : Q;
  autres_dettes_ct : Q;
  tresorerie_passive : Q;
  total_passif : Q;
  periode : string
}.

End BilanFinancier.

Module PatrimoineEntreprise.

Record t : Type := mk {
  actifs_economiques : Q;
  dettes_financieres : Q;
  actif_net_comptable : Q;
  capitaux_propres_retraites : Q;
  patrimoine_net : Q;
  periode : string;
  ratio_endettement : option Q;
  ratio_solvabilite : option Q;
  ratio_liquidite : option Q
}.

End PatrimoineEntreprise.

(** ** simple_transforms.py *)

Module SimpleReportCalculator.

Import LigneCompte.

(** Conditions of the generator expressions, named after what they test. *)
Definition classe_sens (c : Z) (s : Sens) (l : LigneCompte.t) : bool :=
  (classe l =? c)%Z && Sens_eqb (sens l) s.

Definition classes_sens (cs : list Z) (s : Sens) (l : LigneCompte.t) : bool :=
  Py.is_in (classe l) cs && Sens_eqb (sens l) s.

Definition classe_sens_prefixe (c : Z) (s : Sens) (p : string)
  (l : LigneCompte.t) : bool :=
  (classe l =? c)%Z && Sens_eqb (sens l) s && Py.startswith (code_compte l) p.

Definition classe_sens_hors_prefixe (c : Z) (s : Sens) (p : string)
  (l : LigneCompte.t) : bool :=
  (classe l =? c)%Z && Sens_eqb (sens l) s
  && negb (Py.startswith (code_compte l) p).

Definition somme (cond : LigneCompte.t -> bool) (donnees : JeuDonnees.t) : Q :=
  Py.sum (JeuDonnees.montants cond (JeuDonnees.lignes donnees)).

Definition calculer_bilan_fonctionnel (donnees : JeuDonnees.t)
  : BilanFonctionnel.t :=
  let emplois_stables := somme (classe_sens 2 DEBIT) donnees in
  (* the explicit [for] loop with [+=] *)
  let ressources_stables :=
    fold_left
      (fun acc ligne =>
         if classes_sens [1; 5]%Z CREDIT ligne then acc + montant ligne else acc)
      (JeuDonnees.lignes donnees) 0 in
  let frng := ressources_stables - emplois_stables in
  let actifs_circulants := somme (classes_sens [3; 4]%Z DEBIT) donnees in
  let passifs_circulants := somme (classes_sens [3; 4]%Z CREDIT) donnees in
  let bfr := actifs_circulants - passifs_circulants in
  let tresorerie_active := somme (classe_sens 5 DEBIT) donnees in
  let tresorerie_passive := somme (classe_sens 5 CREDIT) donnees in
  let tresorerie_nette := tresorerie_active - tresorerie_passive in
  BilanFonctionnel.mk emplois_stables ressources_stables frng
    actifs_circulants passifs_circulants bfr
    tresorerie_active tresorerie_passive tresorerie_nette
    (JeuDonnees.periode donnees).

Definition calculer_bilan_financier (donnees : JeuDonnees.t)
  : BilanFinancier.t :=
  (* Actif *)
  let immobilisations_nettes := somme (classe_sens 2 DEBIT) donnees in
  let stocks := somme (classe_sens 3 DEBIT) donnees in
  let creances_clients := somme (classe_sens_prefixe 4 DEBIT "342") donnees in
  let autres_creances :=
    somme (classe_sens_hors_prefixe 4 DEBIT "342") donnees in
  let tresorerie_active := somme (classe_sens 5 DEBIT) donnees in
  let total_actif :=
    immobilisations_nettes + stocks + creances_clients + autres_creances
    + tresorerie_active in
  (* Passif *)
  let capital_social := somme (classe_sens_prefixe 1 CREDIT "111") donnees in
  let reserves :=
    somme (fun l => classe_sens_prefixe 1 CREDIT "11" l
                    && negb (Py.startswith (code_compte l) "111")) donnees in
  let resultat_net :=
    somme (classes_sens [6; 7]%Z CREDIT) donnees
    - somme (classes_sens [6; 7]%Z DEBIT) donnees in
  let capitaux_propres := capital_social + reserves + Py.max0 resultat_net in
  let dettes_financieres_lt :=
    somme (classe_sens_prefixe 1 CREDIT "14") donnees in
  let dettes_fournisseurs :=
    somme (classe_sens_prefixe 4 CREDIT "441") donnees in
  let autres_dettes_ct :=
    somme (classe_sens_hors_prefixe 4 CREDIT "441") donnees in
  let tresorerie_passive := somme (classe_sens 5 CREDIT) donnees in
  let total_passif :=
    capitaux_propres + dettes_financieres_lt + dettes_fournisseurs
    + autres_dettes_ct + tresorerie_passive in
  BilanFinancier.mk immobilisations_nettes stocks creances_clients
    autres_creances tresorerie_active total_actif capital_social reserves
    resultat_net capitaux_propres dettes_financieres_lt dettes_fournisseurs
    autres_dettes_ct tresorerie_passive total_passif
    (JeuDonnees.periode donnees).

Definition calculer_patrimoine (donnees : JeuDonnees.t)
  : Py.result PatrimoineEntreprise.t :=
  let actifs_economiques := somme (classes_sens [2; 3; 4; 5]%Z DEBIT) donnees in
  let dettes_financieres :=
    somme (classe_sens_hors_prefixe 1 CREDIT "11") donnees in
  let actif_net_comptable := actifs_economiques - dettes_financieres in
  let capitaux_propres_retraites :=
    somme (classe_sens_prefixe 1 CREDIT "11") donnees in
  let patrimoine_net := actif_net_comptable in
  (* [a / b if b > 0 else 0] *)
  ratio_endettement <-
    (if Py.gt actifs_economiques 0
     then Py.truediv dettes_financieres actifs_economiques
     else Py.ret 0) ;;
  ratio_solvabilite <-
    (if Py.gt dettes_financieres 0
     then Py.truediv capitaux_propres_retraites dettes_financieres
     else Py.ret 0) ;;
  let ratio_liquidite := 1 in
  Py.ret (PatrimoineEntreprise.mk actifs_economiques dettes_financieres
            actif_net_comptable capitaux_propres_retraites patrimoine_net
            (JeuDonnees.periode donnees)
            (Some ratio_endettement) (Some ratio_solvabilite)
            (Some ratio_liquidite)).

(** The argument of [analyser_rapport] is typed [Any]; the three
    [isinstance] branches and the fall-through. *)
Inductive rapport : Type :=
| Fonctionnel (r : BilanFonctionnel.t)
| Financier (r : BilanFinancier.t)
| Patrimoine (r : PatrimoineEntreprise.t)
| Autre.

(** The dictionary [analyse] with its three lists. *)
Record analyse : Type := mk_analyse {
  points_cles : list Py.text;
  recommandations : list Py.text;
  alertes : list Py.text
}.

Definition analyse_vide : analyse := mk_analyse [] [] [].

Definition append_point (a : analyse) (m : Py.text) : analyse :=
  mk_analyse (points_cles a ++ [m]) (recommandations a) (alertes a).

Definition append_recommandation (a : analyse) (m : Py.text) : analyse :=
  mk_analyse (points_cles a) (recommandations a ++ [m]) (alertes a).

Definition append_alerte (a : analyse) (m : Py.text) : analyse :=
  mk_analyse (points_cles a) (recommandations a) (alertes a ++ [m]).

Definition msg_frng_positif : Py.text :=
  Py.lit "FRNG positif : bonne couverture des emplois stables".
Definition msg_frng_negatif : Py.text :=
  Py.lit "FRNG négatif : dépendance aux financements court terme".
Definition msg_renforcer : Py.text := Py.lit "Renforcer les ressources stables".
Definition msg_bfr_positif (bfr : Q) : Py.text :=
  [Py.Lit "BFR positif de "; Py.NumF2 bfr].
Definition msg_optimiser : Py.text := Py.lit "Optimiser le cycle d'exploitation".
Definition msg_tresorerie_negative : Py.text := Py.lit "Trésorerie négative".
Definition msg_ameliorer : Py.text :=
  Py.lit "Améliorer la gestion de trésorerie".
Definition msg_endettement_eleve : Py.text := Py.lit "Taux d'endettement élevé".
Definition msg_reduire : Py.text := Py.lit "Réduire l'endettement".
Definition msg_faible_autonomie : Py.text :=
  Py.lit "Faible autonomie financière".
Definition msg_endettement_patrimonial : Py.text :=
  Py.lit "Endettement patrimonial élevé".
Definition msg_solvabilite : Py.text := Py.lit "Solvabilité compromise".

(** [x and x > seuil] / [x and x < seuil] on an [Optional[float]]: [None]
    and zero are falsy, so the comparison is evaluated on a non-zero
    number only. *)
Definition et_gt (x : option Q) (seuil : Q) : bool :=
  match x with
  | None => false
  | Some r => if Py.truthy r then Py.gt r seuil else false
  end.

Definition et_lt (x : option Q) (seuil : Q) : bool :=
  match x with
  | None => false
  | Some r => if Py.truthy r then Py.lt r seuil else false
  end.

Definition analyser_fonctionnel (r : BilanFonctionnel.t) (a : analyse)
  : analyse :=
  let a :=
    if Py.gt (BilanFonctionnel.frng r) 0
    then append_point a msg_frng_positif
    else append_recommandation (append_alerte a msg_frng_negatif)
           msg_renforcer in
  let a :=
    if Py.gt (BilanFonctionnel.bfr r) 0
    then append_recommandation
           (append_point a (msg_bfr_positif (BilanFonctionnel.bfr r)))
           msg_optimiser
    else a in
  if Py.lt (BilanFonctionnel.tresorerie_nette r) 0
  then append_recommandation (append_alerte a msg_tresorerie_negative)
         msg_ameliorer
  else a.

Definition analyser_financier (r : BilanFinancier.t) (a : analyse)
  : Py.result analyse :=
  if Py.gt (BilanFinancier.total_actif r) 0 then
    ratio_endettement <-
      Py.truediv (BilanFinancier.total_passif r
                  - BilanFinancier.capitaux_propres r)
                 (BilanFinancier.total_actif r) ;;
    let a :=
      if Py.gt ratio_endettement (7 # 10)
      then append_recommandation (append_alerte a msg_endettement_eleve)
             msg_reduire
      else a in
    ratio_autonomie <-
      Py.truediv (BilanFinancier.capitaux_propres r)
                 (BilanFinancier.total_passif r) ;;
    Py.ret (if Py.lt ratio_autonomie (3 # 10)
            then append_alerte a msg_faible_autonomie
            else a)
  else Py.ret a.

Definition analyser_patrimoine (r : PatrimoineEntreprise.t) (a : analyse)
  : analyse :=
  let a :=
    if et_gt (PatrimoineEntreprise.ratio_endettement r) (1 # 2)
    then append_alerte a msg_endettement_patrimonial
    else a in
  if et_lt (PatrimoineEntreprise.ratio_solvabilite r) 1
  then append_alerte a msg_solvabilite
  else a.

Definition analyser_rapport (r : rapport) : Py.result analyse :=
  let analyse := analyse_vide in
  match r with
  | Fonctionnel r => Py.ret (analyser_fonctionnel r analyse)
  | Financier r => analyser_financier r analyse
  | Patrimoine r => Py.ret (analyser_patrimoine r analyse)
  | Autre => Py.ret analyse
  end.

End SimpleReportCalculator.

(** ** export/simple_exporters.py *)

Module SimpleExporter.

Import SimpleReportCalculator.

(** [_generer_analyse(rapport, options)]: the exporter's own, shorter
    analysis.  [options] is received and not read. *)
Definition _generer_analyse (r : rapport) (options : list (string * string))
  : Py.result analyse :=
  let analyse := analyse_vide in
  match r with
  | Fonctionnel r =>
      let analyse :=
        if Py.gt (BilanFonctionnel.frng r) 0
        then append_point analyse (Py.lit "FRNG positif")
        else append_recommandation
               (append_alerte analyse (Py.lit "FRNG négatif"))
               (Py.lit "Renforcer les ressources stables") in
      Py.ret
        (if Py.lt (BilanFonctionnel.tresorerie_nette r) 0
         then append_recommandation
                (append_alerte analyse (Py.lit "Trésorerie négative"))
                (Py.lit "Améliorer la gestion de trésorerie")
         else analyse)
  | Financier r =>
      if Py.gt (BilanFinancier.total_actif r) 0 then
        ratio_endettement <-
          Py.truediv (BilanFinancier.total_passif r
                      - BilanFinancier.capitaux_propres r)
                     (BilanFinancier.total_actif r) ;;
        Py.ret
          (if Py.gt ratio_endettement (7 # 10)
           then append_recommandation
                  (append_alerte analyse (Py.lit "Endettement élevé"))
                  (Py.lit "Réduire l'endettement")
           else analyse)
      else Py.ret analyse
  | Patrimoine r =>
      Py.ret
        (if et_gt (PatrimoineEntreprise.ratio_endettement r) (1 # 2)
         then append_alerte analyse (Py.lit "Endettement patrimonial élevé")
         else analyse)
  | Autre => Py.ret analyse
  end.

End SimpleExporter.

(** ** export/exporters/docx_exporter.py

    The helper methods at the end of [DocxExporter].  [PDFExporter] has
    the same four, [ExcelExporter] the two [_interpret_] ones.
    [float(x)] is the identity on a number. *)

Module DocxExporter.

Definition _analyze_bilan_financier (bilan : BilanFinancier.t)
  : Py.result string :=
  let analyses : list string := [] in
  let total_actif := BilanFinancier.total_actif bilan in
  analyses <-
    (if Py.gt total_actif 0 then
       ratio_immobilisations <-
         Py.truediv (BilanFinancier.immobilisations_nettes bilan) total_actif ;;
       ratio_capitaux_propres <-
         Py.truediv (BilanFinancier.capitaux_propres bilan) total_actif ;;
       let analyses :=
         if Py.gt ratio_immobilisations (1 # 2)
         then (analyses ++ ["L'entreprise présente une structure capitalistique marquée avec des immobilisations importantes."])%list
         else analyses in
       Py.ret
         (if Py.gt ratio_capitaux_propres (1 # 2)
          then (analyses ++ ["Les capitaux propres constituent la principale source de financement, assurant une bonne autonomie financière."])%list
          else if Py.lt ratio_capitaux_propres (1 # 5)
          then (analyses ++ ["L'entreprise dépend fortement de l'endettement pour son financement."])%list
          else analyses)
     else Py.ret analyses) ;;
  Py.ret (String.concat " " analyses).

Definition msg_equilibree : string :=
  "La structure financière est équilibrée, maintenir la politique actuelle".

Definition _get_bilan_fonctionnel_recommendations (bilan : BilanFonctionnel.t)
  : list string :=
  let recommendations : list string := [] in
  let recommendations :=
    if Py.lt (BilanFonctionnel.frng bilan) 0
    then (recommendations ++ ["Renforcer les ressources stables (augmentation de capital, dettes à long terme)"])%list
    else recommendations in
  let recommendations :=
    if Py.gt (BilanFonctionnel.bfr bilan) (BilanFonctionnel.frng bilan)
    then (recommendations ++ ["Optimiser le cycle d'exploitation pour réduire le BFR"])%list
    else recommendations in
  let recommendations :=
    if Py.lt (BilanFonctionnel.tresorerie_nette bilan) 0
    then (recommendations ++ ["Améliorer la gestion de trésorerie (negociation des délais, cession d'actifs)"])%list
    else recommendations in
  match recommendations with
  | [] => (recommendations ++ [msg_equilibree])%list
  | _ :: _ => recommendations
  end.

Definition _interpret_ratio (ratio : option Q) (good_threshold bad_threshold : Q)
  : string :=
  match ratio with
  | None => "Non calculable"
  | Some ratio =>
      if Qle_bool ratio good_threshold then "✅ Bon"
      else if Qle_bool bad_threshold ratio then "⚠️ À surveiller"
      else "🟡 Moyen"
  end.

Definition _interpret_solvability (ratio : option Q) : string :=
  match ratio with
  | None => "Non calculable"
  | Some ratio =>
      if Py.gt ratio 1 then "✅ Solvable"
      else if Py.gt ratio (1 # 2) then "🟡 Solvabilité moyenne"
      else "⚠️ Solvabilité faible"
  end.

End DocxExporter.

(** ** The binary64 embedding

    [simple_models.py] and the financial and patrimonial calculators of
    [simple_transforms.py] once more, the amounts now binary64 values and
    every operation the rounding one.  [sum] is passed as an argument,
    so that a statement can be made for each version of the
    interpreter's [sum]. *)

Module Binary64.

Local Open Scope float_scope.

(** [x < y] and [x > y] on floats. *)
Definition lt (x y : float) : bool := PrimFloat.ltb x y.
Definition gt (x y : float) : bool := PrimFloat.ltb y x.

(** [x / y]: true division raises on a zero divisor. *)
Definition truediv (x y : float) : Py.result float :=
  if PrimFloat.eqb y 0 then Py.raise Py.ZeroDivisionError else Py.ret (x / y).

(** [max(0, x)]. *)
Definition max0 (x : float) : float := if gt x 0 then x else 0.

(** [sum(iterable)] up to CPython 3.11: the items are added to the
    running total from left to right. *)
Definition sum_gauche (l : list float) : float := fold_left PrimFloat.add l 0.

(** [sum(iterable)] since CPython 3.12: compensated summation.  The
    running total is a pair (sum, compensation); the compensation is
    added at the end when it is non-zero and finite. *)
Definition cs_add (total : float * float) (x : float) : float * float :=
  let (hi, lo) := total in
  let t := hi + x in
  if PrimFloat.leb (PrimFloat.abs x) (PrimFloat.abs hi)
  then (t, lo + ((hi - t) + x))
  else (t, lo + ((x - t) + hi)).

Definition cs_to_double (total : float * float) : float :=
  let (hi, lo) := total in
  if negb (PrimFloat.eqb lo 0) && PrimFloat.is_finite lo then hi + lo else hi.

Definition sum_compense (l : list float) : float :=
  match l with
  | [] => 0
  | x :: l' => cs_to_double (fold_left cs_add l' (0 + x, 0))
  end.

(** The rational a finite float stands for (0 for an infinity or a
    NaN, which no amount is). *)
Definition valeur (x : float) : Q :=
  match Prim2SF x with
  | S754_finite s m e =>
      let v := (inject_Z (Zpos m) * Qpower 2 e)%Q in
      if s then (- v)%Q else v
  | _ => 0%Q
  end.

Module LigneCompte.

Record t : Type := mk {
  code_compte : string;
  libelle : string;
  classe : Z;
  sens : Sens;
  montant : float;
  periode : string
}.

Definition post_init (self : t) : Py.result unit :=
  if (String.eqb (code_compte self) "" || (String.length (code_compte self) <? 3)%nat)%bool
  then Py.raise (Py.ValueError (Py.lit "Code compte invalide"))
  else if negb ((1 <=? classe self)%Z && (classe self <=? 9)%Z)
  then Py.raise (Py.ValueError (Py.lit "Classe doit être entre 1 et 9"))
  else if lt (montant self) 0
  then Py.raise (Py.ValueError (Py.lit "Montant doit être positif"))
  else Py.ret tt.

End LigneCompte.

Module JeuDonnees.

Record t : Type := mk {
  lignes : list LigneCompte.t;
  periode : string;
  entreprise : string
}.

(** The generator [l.montant for l in lignes if cond(l)]. *)
Definition montants (cond : LigneCompte.t -> bool) (ls : list LigneCompte.t)
  : list float :=
  map LigneCompte.montant (filter cond ls).

Definition est (s : Sens) (l : LigneCompte.t) : bool :=
  Sens_eqb (LigneCompte.sens l) s.

(** The literal [0.01]. *)
Definition epsilon : float := 0.01.

Definition post_init (sum : list float -> float) (self : t) : Py.result unit :=
  match lignes self with
  | [] => Py.raise (Py.ValueError
            (Py.lit "Le jeu de données doit contenir au moins une ligne"))
  | _ :: _ =>
      let total_debit := sum (montants (est DEBIT) (lignes self)) in
      let total_credit := sum (montants (est CREDIT) (lignes self)) in
      if gt (PrimFloat.abs (total_debit - total_credit)) epsilon
      then Py.raise (Py.ValueError
             [Py.Lit "Déséquilibre: Débit="; Py.Num (valeur total_debit);
              Py.Lit ", Crédit="; Py.Num (valeur total_credit)])
      else Py.ret tt
  end.

End JeuDonnees.

Module BilanFinancier.

Record t : Type := mk {
  immobilisations_nettes : float;
  stocks : float;
  creances_clients : float;
  autres_creances : float;
  tresorerie_active : float;
  total_actif : float;
  capital_social : float;
  reserves : float;
  resultat_net : float;
  capitaux_propres : float;
  dettes_financieres_lt : float;
  dettes_fournisseurs : float;
  autres_dettes_ct : float;
  tresorerie_passive : float;
  total_passif : float;
  periode : string
}.

End BilanFinancier.

Module PatrimoineEntreprise.

Record t : Type := mk {
  actifs_economiques : float;
  dettes_financieres : float;
  actif_net_comptable : float;
  capitaux_propres_retraites : float;
  patrimoine_net : float;
  periode : string;
  ratio_endettement : option float;
  ratio_solvabilite : option float;
  ratio_liquidite : option float
}.

End PatrimoineEntreprise.

Import LigneCompte.

Definition classe_sens (c : Z) (s : Sens) (l : LigneCompte.t) : bool :=
  (classe l =? c)%Z && Sens_eqb (sens l) s.

Definition classes_sens (cs : list Z) (s : Sens) (l : LigneCompte.t) : bool :=
  Py.is_in (classe l) cs && Sens_eqb (sens l) s.

Definition classe_sens_prefixe (c : Z) (s : Sens) (p : string)
  (l : LigneCompte.t) : bool :=
  (classe l =? c)%Z && Sens_eqb (sens l) s && Py.startswith (code_compte l) p.

Definition classe_sens_hors_prefixe (c : Z) (s : Sens) (p : string)
  (l : LigneCompte.t) : bool :=
  (classe l =? c)%Z && Sens_eqb (sens l) s
  && negb (Py.startswith (code_compte l) p).

(** The condition of [reserves]. *)
Definition reserve (l : LigneCompte.t) : bool :=
  classe_sens_prefixe 1 CREDIT "11" l
  && negb (Py.startswith (code_compte l) "111").

Section Calculateurs.

Variable sum : list float -> float.

Definition somme (cond : LigneCompte.t -> bool) (donnees : JeuDonnees.t)
  : float :=
  sum (JeuDonnees.montants cond (JeuDonnees.lignes donnees)).

Definition calculer_bilan_financier (donnees : JeuDonnees.t)
  : BilanFinancier.t :=
  (* Actif *)
  let immobilisations_nettes := somme (classe_sens 2 DEBIT) donnees in
  let stocks := somme (classe_sens 3 DEBIT) donnees in
  let creances_clients := somme (classe_sens_prefixe 4 DEBIT "342") donnees in
  let autres_creances :=
    somme (classe_sens_hors_prefixe 4 DEBIT "342") donnees in
  let tresorerie_active := somme (classe_sens 5 DEBIT) donnees in
  let total_actif :=
    immobilisations_nettes + stocks + creances_clients + autres_creances
    + tresorerie_active in
  (* Passif *)
  let capital_social := somme (classe_sens_prefixe 1 CREDIT "111") donnees in
  let reserves := somme reserve donnees in
  let resultat_net :=
    somme (classes_sens [6; 7]%Z CREDIT) donnees
    - somme (classes_sens [6; 7]%Z DEBIT) donnees in
  let capitaux_propres := capital_social + reserves + max0 resultat_net in
  let dettes_financieres_lt :=
    somme (classe_sens_prefixe 1 CREDIT "14") donnees in
  let dettes_fournisseurs :=
    somme (classe_sens_prefixe 4 CREDIT "441") donnees in
  let autres_dettes_ct :=
    somme (classe_sens_hors_prefixe 4 CREDIT "441") donnees in
  let tresorerie_passive := somme (classe_sens 5 CREDIT) donnees in
  let total_passif :=
    capitaux_propres + dettes_financieres_lt + dettes_fournisseurs
    + autres_dettes_ct + tresorerie_passive in
  BilanFinancier.mk immobilisations_nettes stocks creances_clients
    autres_creances tresorerie_active total_actif capital_social reserves
    resultat_net capitaux_propres dettes_financieres_lt dettes_fournisseurs
    autres_dettes_ct tresorerie_passive total_passif
    (JeuDonnees.periode donnees).

Definition calculer_patrimoine (donnees : JeuDonnees.t)
  : Py.result PatrimoineEntreprise.t :=
  let actifs_economiques := somme (classes_sens [2; 3; 4; 5]%Z DEBIT) donnees in
  let dettes_financieres :=
    somme (classe_sens_hors_prefixe 1 CREDIT "11") donnees in
  let actif_net_comptable := actifs_economiques - dettes_financieres in
  let capitaux_propres_retraites :=
    somme (classe_sens_prefixe 1 CREDIT "11") donnees in
  let patrimoine_net := actif_net_comptable in
  ratio_endettement <-
    (if gt actifs_economiques 0
     then truediv dettes_financieres actifs_economiques
     else Py.ret 0) ;;
  ratio_solvabilite <-
    (if gt dettes_financieres 0
     then truediv capitaux_propres_retraites dettes_financieres
     else Py.ret 0) ;;
  let ratio_liquidite := 1 in
  Py.ret (PatrimoineEntreprise.mk actifs_economiques dettes_financieres
            actif_net_comptable capitaux_propres_retraites patrimoine_net
            (JeuDonnees.periode donnees)
            (Some ratio_endettement) (Some ratio_solvabilite)
            (Some ratio_liquidite)).

(** A dataset the two constructors accept. *)
Definition valide (d : JeuDonnees.t) : Prop :=
  Forall (fun l => LigneCompte.post_init l = Py.ret tt) (JeuDonnees.lignes d)
  /\ JeuDonnees.post_init sum d = Py.ret tt.

End Calculateurs.

(** The condition of [actifs_economiques] in the words of the
    specification: a debit entry whose class lies between 2 and 5. *)
Definition debit_classes_2_a_5 (l : LigneCompte.t) : bool :=
  Sens_eqb (sens l) DEBIT && ((2 <=? classe l)%Z && (classe l <=? 5)%Z).

(** Three tenths, two tenths and one tenth on the debit side, in
    classes 5, 3 and 2; six tenths of capital on the credit side. *)
Definition donnees_actif_dixiemes : JeuDonnees.t :=
  JeuDonnees.mk
    [ LigneCompte.mk "5141" "Banque" 5 DEBIT 0.3 "2024";
      LigneCompte.mk "3111" "Stocks marchandises" 3 DEBIT 0.2 "2024";
      LigneCompte.mk "2340" "Matériel transport" 2 DEBIT 0.1 "2024";
      LigneCompte.mk "1111" "Capital social" 1 CREDIT 0.6 "2024" ]
    "2024" "Entreprise".

(** Six tenths of equipment on the debit side; on the credit side three
    tenths under 119, then two tenths and one tenth under 111. *)
Definition donnees_capitaux_dixiemes : JeuDonnees.t :=
  JeuDonnees.mk
    [ LigneCompte.mk "2340" "Matériel transport" 2 DEBIT 0.6 "2024";
      LigneCompte.mk "1191" "Résultat de l'exercice" 1 CREDIT 0.3 "2024";
      LigneCompte.mk "1112" "Capital appelé" 1 CREDIT 0.2 "2024";
      LigneCompte.mk "1111" "Capital social" 1 CREDIT 0.1 "2024" ]
    "2024" "Entreprise".

(** What the two fixtures show, for a given version of [sum]: the
    dataset is valid, and the two totals the claim equates have the
    stated values and are not equal. *)
Definition actif_differe (sum : list float -> float) : Prop :=
  valide sum donnees_actif_dixiemes
  /\ exists p,
       calculer_patrimoine sum donnees_actif_dixiemes = Py.ret p
       /\ PrimFloat.eqb
            (BilanFinancier.total_actif
               (calculer_bilan_financier sum donnees_actif_dixiemes))
            0.6000000000000001 = true
       /\ PrimFloat.eqb (PatrimoineEntreprise.actifs_economiques p) 0.6 = true
       /\ PrimFloat.eqb
            (BilanFinancier.total_actif
               (calculer_bilan_financier sum donnees_actif_dixiemes))
            (PatrimoineEntreprise.actifs_economiques p) = false.

Definition capitaux_different (sum : list float -> float) : Prop :=
  valide sum donnees_capitaux_dixiemes
  /\ exists p,
       calculer_patrimoine sum donnees_capitaux_dixiemes = Py.ret p
       /\ PrimFloat.eqb
            (BilanFinancier.capital_social
               (calculer_bilan_financier sum donnees_capitaux_dixiemes)
             + BilanFinancier.reserves
                 (calculer_bilan_financier sum donnees_capitaux_dixiemes))
            0.6000000000000001 = true
       /\ PrimFloat.eqb
            (PatrimoineEntreprise.capitaux_propres_retraites p) 0.6 = true
       /\ PrimFloat.eqb
            (BilanFinancier.capital_social
               (calculer_bilan_financier sum donnees_capitaux_dixiemes)
             + BilanFinancier.reserves
                 (calculer_bilan_financier sum donnees_capitaux_dixiemes))
            (PatrimoineEntreprise.capitaux_propres_retraites p) = false.

End Binary64.

(** ** Valid entries and datasets

    An object exists only if its constructor returned: an entry is valid
    when [LigneCompte.__post_init__] accepts it, a dataset when every
    entry is valid and [JeuDonnees.__post_init__] accepts it. *)

Definition ligne_valide (l : LigneCompte.t) : Prop :=
  LigneCompte.post_init l = Py.ret tt.

Definition valide (d : JeuDonnees.t) : Prop :=
  Forall ligne_valide (JeuDonnees.lignes d)
  /\ JeuDonnees.post_init d = Py.ret tt.

(** ** Fixtures *)

(** The nine entries of [tests/test_transforms.py] ([setUp]), which are the
    entries of the end-to-end scenario. *)
Definition lignes_test : list LigneCompte.t :=
  [ LigneCompte.mk "1111" "Capital social" 1 CREDIT 100000 "2024";
    LigneCompte.mk "2111" "Frais constitution" 2 DEBIT 5000 "2024";
    LigneCompte.mk "2340" "Matériel transport" 2 DEBIT 25000 "2024";
    LigneCompte.mk "3111" "Stocks marchandises" 3 DEBIT 15000 "2024";
    LigneCompte.mk "3421" "Clients" 4 DEBIT 20000 "2024";
    LigneCompte.mk "4411" "Fournisseurs" 4 CREDIT 12000 "2024";
    LigneCompte.mk "5141" "Banque" 5 DEBIT 50000 "2024";
    LigneCompte.mk "5514" "Caisse" 5 DEBIT 7000 "2024";
    LigneCompte.mk "1191" "Résultat de l'exercice" 1 CREDIT 10000 "2024" ].

Definition donnees_test : JeuDonnees.t :=
  JeuDonnees.mk lignes_test "2024" "Test Entreprise".

(** The twenty-three entries of [tests/test_integration.py] ([setUp]),
    balancing entry included. *)
Definition lignes_completes : list LigneCompte.t :=
  [ LigneCompte.mk "1111" "Capital social" 1 CREDIT 100000 "2024";
    LigneCompte.mk "1119" "Report à nouveau" 1 CREDIT 5000 "2024";
    LigneCompte.mk "1191" "Résultat de l'exercice" 1 CREDIT 15000 "2024";
    LigneCompte.mk "2111" "Frais de constitution" 2 DEBIT 5000 "2024";
    LigneCompte.mk "2332" "Matériel et outillage" 2 DEBIT 45000 "2024";
    LigneCompte.mk "2340" "Matériel de transport" 2 DEBIT 30000 "2024";
    LigneCompte.mk "2813" "Amortissements matériel outillage" 2 CREDIT 9000 "2024";
    LigneCompte.mk "2834" "Amortissements matériel transport" 2 CREDIT 6000 "2024";
    LigneCompte.mk "3111" "Stocks de marchandises" 3 DEBIT 25000 "2024";
    LigneCompte.mk "3421" "Clients" 4 DEBIT 35000 "2024";
    LigneCompte.mk "3458" "État, TVA récupérable" 4 DEBIT 8000 "2024";
    LigneCompte.mk "4411" "Fournisseurs" 4 CREDIT 18000 "2024";
    LigneCompte.mk "4456" "État, TVA due" 4 CREDIT 12000 "2024";
    LigneCompte.mk "5141" "Banque" 5 DEBIT 45000 "2024";
    LigneCompte.mk "5161" "Caisse" 5 DEBIT 12000 "2024";
    LigneCompte.mk "6111" "Achats de marchandises" 6 DEBIT 80000 "2024";
    LigneCompte.mk "6133" "Entretien et réparations" 6 DEBIT 5000 "2024";
    LigneCompte.mk "6171" "Rémunérations du personnel" 6 DEBIT 25000 "2024";
    LigneCompte.mk "6311" "Intérêts des emprunts" 6 DEBIT 3000 "2024";
    LigneCompte.mk "7111" "Ventes de marchandises" 7 CREDIT 120000 "2024";
    LigneCompte.mk "7127" "Ventes de produits accessoires" 7 CREDIT 8000 "2024";
    LigneCompte.mk "7381" "Intérêts et produits assimilés" 7 CREDIT 2000 "2024";
    LigneCompte.mk "1191" "Résultat de l'exercice" 1 CREDIT 23000 "2024" ].

Definition donnees_completes : JeuDonnees.t :=
  JeuDonnees.mk lignes_completes "2024" "Entreprise Test Complète".

(** A vehicle financed by a bank overdraft: one class-2 debit, one class-5
    credit of the same amount. *)
Definition donnees_decouvert : JeuDonnees.t :=
  JeuDonnees.mk
    [ LigneCompte.mk "2340" "Matériel de transport" 2 DEBIT 1000 "2024";
      LigneCompte.mk "5520" "Crédits de trésorerie" 5 CREDIT 1000 "2024" ]
    "2024" "Entreprise".

(** Equipment financed by a long-term provision (account 15): the credit
    side sits in class 1 under a prefix that is neither 11 nor 14. *)
Definition donnees_provision : JeuDonnees.t :=
  JeuDonnees.mk
    [ LigneCompte.mk "2332" "Matériel et outillage" 2 DEBIT 100 "2024";
      LigneCompte.mk "1511" "Provisions pour litiges" 1 CREDIT 100 "2024" ]
    "2024" "Entreprise".

(** ** Conditions named by the statements *)

Import SimpleReportCalculator.

(** The three ways an entry is refused. *)
Definition ligne_refusee (code : string) (cl : Z) (m : Q) : Prop :=
  (String.length code < 3)%nat \/ (cl < 1)%Z \/ (9 < cl)%Z \/ m < 0.


(** The report the patrimonial calculator yields on the nine-entry
    scenario: no financial debt, so both ratios are 0. *)
Definition patrimoine_sans_dette : PatrimoineEntreprise.t :=
  PatrimoineEntreprise.mk 122000 0 122000 110000 122000 "2024"
    (Some 0) (Some 0) (Some 1).

(** The invariants of an entry, as propositions on its fields. *)
Definition ligne_conforme (l : LigneCompte.t) : Prop :=
  (3 <= String.length (LigneCompte.code_compte l))%nat
  /\ (1 <= LigneCompte.classe l <= 9)%Z
  /\ 0 <= LigneCompte.montant l.

(** An entry as its constructor returns it. *)
Definition ligne_construite (l : LigneCompte.t) : Prop :=
  LigneCompte.new (LigneCompte.code_compte l) (LigneCompte.libelle l)
    (LigneCompte.classe l) (LigneCompte.sens l) (LigneCompte.montant l)
    (LigneCompte.periode l)
  = Py.ret l.

(** ** Comparisons and sums *)

Lemma lt_iff (x y : Q) : Py.lt x y = true <-> x < y.
Proof.
  unfold Py.lt. rewrite negb_true_iff.
  split; intro H.
  - apply Qnot_le_lt. intro Hle. apply Qle_bool_iff in Hle. congruence.
  - destruct (Qle_bool y x) eqn:E; [|reflexivity].
    apply Qle_bool_iff in E. exfalso. apply (Qlt_not_le _ _ H E).
Qed.

Lemma lt_false_iff (x y : Q) : Py.lt x y = false <-> y <= x.
Proof.
  unfold Py.lt. rewrite negb_false_iff. apply Qle_bool_iff.
Qed.

Lemma gt_iff (x y : Q) : Py.gt x y = true <-> y < x.
Proof. apply lt_iff. Qed.

Lemma gt_false_iff (x y : Q) : Py.gt x y = false <-> x <= y.
Proof. apply lt_false_iff. Qed.

Lemma truediv_ok (x y : Q) : ~ y == 0 -> Py.truediv x y = Py.ret (x / y).
Proof.
  intro H. unfold Py.truediv.
  destruct (Qeq_bool y 0) eqn:E; [|reflexivity].
  apply Qeq_bool_iff in E. contradiction.
Qed.

Lemma truediv_zero (x y : Q) : y == 0 -> Py.truediv x y = Py.raise Py.ZeroDivisionError.
Proof.
  intro H. unfold Py.truediv. apply Qeq_bool_iff in H. now rewrite H.
Qed.

Lemma fold_left_Qplus_acc (l : list Q) :
  forall a, fold_left Qplus l a == a + fold_left Qplus l 0.
Proof.
  induction l as [|x l IH]; intro a; cbn [fold_left].
  - lra.
  - rewrite (IH (a + x)), (IH (0 + x)). lra.
Qed.

Lemma sum_cons (x : Q) (l : list Q) : Py.sum (x :: l) == x + Py.sum l.
Proof.
  unfold Py.sum. cbn [fold_left]. rewrite fold_left_Qplus_acc. lra.
Qed.

(** One step of a filtered sum: the head contributes its amount when it
    passes the condition. *)
Lemma sum_montants_cons (c : LigneCompte.t -> bool) (x : LigneCompte.t)
  (ls : list LigneCompte.t) :
  Py.sum (JeuDonnees.montants c (x :: ls))
  == (if c x then LigneCompte.montant x else 0)
     + Py.sum (JeuDonnees.montants c ls).
Proof.
  unfold JeuDonnees.montants. cbn [filter].
  destruct (c x); cbn [map].
  - apply sum_cons.
  - lra.
Qed.

Lemma sum_montants_nil (c : LigneCompte.t -> bool) :
  Py.sum (JeuDonnees.montants c []) == 0.
Proof. reflexivity. Qed.

Lemma ligne_valide_montant (l : LigneCompte.t) :
  ligne_valide l -> 0 <= LigneCompte.montant l.
Proof.
  unfold ligne_valide, LigneCompte.post_init. intro H.
  destruct (_ || _)%bool; [discriminate|].
  destruct (negb _); [discriminate|].
  destruct (Py.lt (LigneCompte.montant l) 0) eqn:E; [discriminate|].
  now apply lt_false_iff in E.
Qed.

Lemma sum_montants_nonneg (c : LigneCompte.t -> bool) (ls : list LigneCompte.t) :
  Forall ligne_valide ls -> 0 <= Py.sum (JeuDonnees.montants c ls).
Proof.
  induction 1 as [|x ls Hx _ IH].
  - rewrite sum_montants_nil. lra.
  - rewrite sum_montants_cons. apply ligne_valide_montant in Hx.
    destruct (c x); lra.
Qed.

(** ** Construction of entries and datasets *)

Section Construction.

Variables (code lib per : string) (cl : Z) (s : Sens) (m : Q).

Lemma ligne_refusee_dec :
  ligne_refusee code cl m \/ ~ ligne_refusee code cl m.
Proof.
  unfold ligne_refusee.
  destruct (Nat.ltb_spec (String.length code) 3); [now left; left|].
  destruct (Z.ltb_spec cl 1); [now left; right; left|].
  destruct (Z.ltb_spec 9 cl); [now left; right; right; left|].
  destruct (Qlt_le_dec m 0) as [Hm|Hm]; [now left; right; right; right|].
  right. intros [H'|[H'|[H'|H']]]; try lia.
  apply (Qlt_not_le _ _ H' Hm).
Qed.

Lemma code_vide_court : String.eqb code "" = true -> (String.length code < 3)%nat.
Proof.
  intro H. apply String.eqb_eq in H. subst code. simpl. lia.
Qed.

Lemma new_ligne_refusee :
  ligne_refusee code cl m ->
  exists msg, LigneCompte.new code lib cl s m per = Py.raise (Py.ValueError msg).
Proof.
  unfold LigneCompte.new, LigneCompte.post_init.
  cbn [LigneCompte.code_compte LigneCompte.classe LigneCompte.montant].
  intro H.
  destruct (String.eqb code "" || (String.length code <? 3)%nat)%bool eqn:Ecode;
    [eexists; reflexivity|].
  apply orb_false_iff in Ecode. destruct Ecode as [_ Elen].
  apply Nat.ltb_ge in Elen.
  destruct (negb ((1 <=? cl)%Z && (cl <=? 9)%Z)) eqn:Ecl;
    [eexists; reflexivity|].
  apply negb_false_iff, andb_true_iff in Ecl. destruct Ecl as [E1 E9].
  apply Z.leb_le in E1, E9.
  destruct (Py.lt m 0) eqn:Em; [eexists; reflexivity|].
  apply lt_false_iff in Em.
  exfalso. destruct H as [H|[H|[H|H]]]; try lia.
  apply (Qlt_not_le _ _ H Em).
Qed.

Lemma new_ligne_acceptee :
  ~ ligne_refusee code cl m ->
  LigneCompte.new code lib cl s m per
  = Py.ret (LigneCompte.mk code lib cl s m per).
Proof.
  unfold LigneCompte.new, LigneCompte.post_init, ligne_refusee.
  cbn [LigneCompte.code_compte LigneCompte.classe LigneCompte.montant].
  intro H.
  destruct (String.eqb code "") eqn:Evide.
  { exfalso. apply H. left. now apply code_vide_court. }
  destruct (Nat.ltb_spec (String.length code) 3) as [Hl|Hl];
    [exfalso; apply H; now left|].
  destruct (Z.leb_spec 1 cl) as [H1|H1];
    [|exfalso; apply H; right; left; lia].
  destruct (Z.leb_spec cl 9) as [H9|H9];
    [|exfalso; apply H; right; right; left; lia].
  destruct (Py.lt m 0) eqn:Em.
  { apply lt_iff in Em. exfalso. apply H. now do 3 right. }
  reflexivity.
Qed.

End Construction.

Section ConstructionJeu.

Variables (ls : list LigneCompte.t) (per ent : string).




End ConstructionJeu.

(** C6.  Constructing an entry raises the validation error ([ValueError]
    in the source) if and only if the account code has fewer than three
    characters, or the class is outside 1..9, or the amount is negative;
    when none of these holds the constructor returns the entry carrying
    exactly the six supplied field values. *)
Theorem LigneCompte_new_spec
  (code lib : string) (cl : Z) (s : Sens) (m : Q) (per : string) :
  ((exists msg,
       LigneCompte.new code lib cl s m per = Py.raise (Py.ValueError msg))
   <-> ligne_refusee code cl m)
  /\ (Py.raises (LigneCompte.new code lib cl s m per)
      <-> ligne_refusee code cl m)
  /\ (LigneCompte.new code lib cl s m per
      = Py.ret (LigneCompte.mk code lib cl s m per)
      <-> ~ ligne_refusee code cl m).
Proof.
  destruct (ligne_refusee_dec code cl m) as [R|A].
  - destruct (new_ligne_refusee code lib per cl s m R) as [msg E].
    rewrite E. repeat split; intros; try assumption; try discriminate.
    + now exists msg.
    + now exists (Py.ValueError msg).
    + contradiction.
  - rewrite (new_ligne_acceptee code lib per cl s m A).
    repeat split; intros; try assumption; try reflexivity.
    + destruct H; discriminate.
    + contradiction.
    + destruct H; discriminate.
    + contradiction.
Qed.


(** ** Code prefixes and the classification of one entry *)

Lemma prefix_app (p q : string) :
  forall s, String.prefix (p ++ q) s = true -> String.prefix p s = true.
Proof.
  induction p as [|a p IH]; intros [|b s]; cbn; try easy.
  destruct (Ascii.ascii_dec a b); [apply IH | easy].
Qed.

(** A code that starts with "111" starts with "11". *)
Lemma startswith_111_11 (code : string) :
  Py.startswith code "111" = true -> Py.startswith code "11" = true.
Proof. apply (prefix_app "11" "1"). Qed.

(** Name every sum over the tail, so that unfolding the conditions on the
    head entry leaves the tail sums untouched. *)
Ltac nommer_sommes :=
  repeat match goal with
         | |- context [Py.sum ?t] =>
             let S := fresh "S" in
             set (S := Py.sum t) in *; clearbody S
         end.

(** Classify the head entry [x]: split on direction, on each class test
    that occurs, and on each prefix test that occurs. *)
Ltac classer x :=
  destruct x as [code lib c s m per];
  unfold classe_sens, classes_sens, classe_sens_prefixe,
    classe_sens_hors_prefixe, JeuDonnees.est, Py.is_in;
  cbn [existsb LigneCompte.classe LigneCompte.sens LigneCompte.montant
       LigneCompte.code_compte];
  destruct s; cbn [Sens_eqb];
  repeat match goal with
         | |- context [(c =? ?k)%Z] => destruct (Z.eqb_spec c k)
         | |- context [(c <=? ?k)%Z] => destruct (Z.leb_spec c k)
         | |- context [(?k <=? c)%Z] => destruct (Z.leb_spec k c)
         end;
  repeat match goal with
         | |- context [Py.startswith code ?p] =>
             let E := fresh "E" in destruct (Py.startswith code p) eqn:E
         end;
  cbn [andb orb negb].

(** ** The calculators on a dataset *)

Lemma valide_equilibre (d : JeuDonnees.t) :
  valide d ->
  Qabs (JeuDonnees.total_debit (JeuDonnees.lignes d)
        - JeuDonnees.total_credit (JeuDonnees.lignes d))
  <= JeuDonnees.epsilon.
Proof.
  intros [_ H]. unfold JeuDonnees.post_init in H.
  destruct (JeuDonnees.lignes d) as [|x l]; [discriminate|].
  cbv zeta in H.
  destruct (Py.gt _ _) eqn:E; [discriminate|].
  now apply gt_false_iff in E.
Qed.

(** [calculer_patrimoine] returns on every dataset: each division sits
    behind the test that its divisor is positive. *)
Lemma calculer_patrimoine_ret (d : JeuDonnees.t) :
  let ae := somme (classes_sens [2; 3; 4; 5]%Z DEBIT) d in
  let df := somme (classe_sens_hors_prefixe 1 CREDIT "11") d in
  let cpr := somme (classe_sens_prefixe 1 CREDIT "11") d in
  calculer_patrimoine d
  = Py.ret (PatrimoineEntreprise.mk ae df (ae - df) cpr (ae - df)
              (JeuDonnees.periode d)
              (Some (if Py.gt ae 0 then df / ae else 0))
              (Some (if Py.gt df 0 then cpr / df else 0))
              (Some 1)).
Proof.
  intros ae df cpr. unfold calculer_patrimoine. fold ae df cpr.
  assert (Hdiv : forall x y, 0 < y -> Py.truediv x y = Py.ret (x / y)).
  { intros x y Hy. apply truediv_ok. intro H0. rewrite H0 in Hy.
    apply (Qlt_irrefl _ Hy). }
  destruct (Py.gt ae 0) eqn:Eae; destruct (Py.gt df 0) eqn:Edf;
    try apply gt_iff in Eae; try apply gt_iff in Edf;
    rewrite ?(Hdiv _ _ Eae), ?(Hdiv _ _ Edf); reflexivity.
Qed.

(** C1, on a two-entry dataset.  The dataset is valid and exactly
    balanced (1000 on each side); a class-5 credit enters both
    [ressources_stables] and [tresorerie_passive], so [frng] is 0 while
    [bfr + tresorerie_nette] is -1000: the identity that
    [tests/test_transforms.py] asserts does not hold. *)
Theorem frng_bfr_tresorerie_donnees_decouvert :
  valide donnees_decouvert
  /\ JeuDonnees.total_debit (JeuDonnees.lignes donnees_decouvert) == 1000
  /\ JeuDonnees.total_credit (JeuDonnees.lignes donnees_decouvert) == 1000
  /\ (let b := calculer_bilan_fonctionnel donnees_decouvert in
      BilanFonctionnel.ressources_stables b == 1000
      /\ BilanFonctionnel.tresorerie_passive b == 1000
      /\ BilanFonctionnel.frng b == 0
      /\ BilanFonctionnel.bfr b == 0
      /\ BilanFonctionnel.tresorerie_nette b == -1000
      /\ ~ (BilanFonctionnel.frng b
            == BilanFonctionnel.bfr b + BilanFonctionnel.tresorerie_nette b)).
Proof.
  split; [split; [repeat constructor | reflexivity]|].
  split; [reflexivity|]. split; [reflexivity|].
  cbv zeta. repeat split; try reflexivity.
  vm_compute. discriminate.
Qed.

(** C3, on the dataset of [tests/test_integration.py].  The dataset is
    valid, and the financial report has [total_actif = 205000] against
    [total_passif = 190000]: the class-2 credits (depreciation, 9000 and
    6000) are in no liability bucket and are not netted from
    [immobilisations_nettes], so the two totals are 15000 apart where
    the test asserts them equal to two places. *)
Theorem actif_passif_donnees_completes :
  valide donnees_completes
  /\ BilanFinancier.total_actif (calculer_bilan_financier donnees_completes)
     == 205000
  /\ BilanFinancier.total_passif (calculer_bilan_financier donnees_completes)
     == 190000
  /\ ~ (Qabs (BilanFinancier.total_actif
                (calculer_bilan_financier donnees_completes)
              - BilanFinancier.total_passif
                  (calculer_bilan_financier donnees_completes))
        <= JeuDonnees.epsilon).
Proof.
  split; [split; [repeat constructor | reflexivity]|].
  split; [reflexivity|]. split; [reflexivity|].
  vm_compute. intro H. now apply H.
Qed.

(** C2, on a two-entry dataset.  The dataset is valid; its financial
    report has a positive [total_actif] and a zero [total_passif], since
    a class-1 credit under prefix "15" is in no liability bucket; the
    analyser passes the guard [total_actif > 0] and divides
    [capitaux_propres] by [total_passif]. *)
Theorem analyser_rapport_division_par_zero :
  valide donnees_provision
  /\ BilanFinancier.total_actif (calculer_bilan_financier donnees_provision)
     == 100
  /\ BilanFinancier.total_passif (calculer_bilan_financier donnees_provision)
     == 0
  /\ analyser_rapport (Financier (calculer_bilan_financier donnees_provision))
     = Py.raise Py.ZeroDivisionError.
Proof.
  split; [split; [repeat constructor | reflexivity]|].
  repeat split; reflexivity.
Qed.

(** The other branches of the analyser return on every report. *)
Lemma analyser_rapport_fonctionnel_ret (r : BilanFonctionnel.t) :
  analyser_rapport (Fonctionnel r)
  = Py.ret (analyser_fonctionnel r analyse_vide).
Proof. reflexivity. Qed.

Lemma analyser_rapport_patrimoine_ret (r : PatrimoineEntreprise.t) :
  analyser_rapport (Patrimoine r)
  = Py.ret (analyser_patrimoine r analyse_vide).
Proof. reflexivity. Qed.

(** The financial branch returns when [total_actif] is not positive or
    [total_passif] is not zero, and raises otherwise. *)
Lemma analyser_rapport_financier_ret (r : BilanFinancier.t) :
  (exists a, analyser_rapport (Financier r) = Py.ret a)
  <-> (BilanFinancier.total_actif r <= 0
       \/ ~ BilanFinancier.total_passif r == 0).
Proof.
  unfold analyser_rapport, analyser_financier.
  destruct (Py.gt (BilanFinancier.total_actif r) 0) eqn:Ea.
  - apply gt_iff in Ea.
    rewrite truediv_ok
      by (intro H0; rewrite H0 in Ea; apply (Qlt_irrefl _ Ea)).
    cbn [Py.bind].
    destruct (Qeq_dec (BilanFinancier.total_passif r) 0) as [Hp|Hp].
    + rewrite (truediv_zero _ _ Hp). cbn [Py.bind]. split.
      * intros [a Ha]. discriminate.
      * intros [H|H]; [exfalso; apply (Qlt_not_le _ _ Ea H) | contradiction].
    + rewrite (truediv_ok _ _ Hp). cbn [Py.bind]. split.
      * intros _. now right.
      * intros _. eexists. reflexivity.
  - apply gt_false_iff in Ea. split.
    + intros _. now left.
    + intros _. eexists. reflexivity.
Qed.

(** C9.  The nine-entry scenario: the dataset is valid and the three
    calculators yield the enumerated field values. *)
Theorem scenario_neuf_lignes :
  valide donnees_test
  /\ JeuDonnees.total_debit lignes_test == 122000
  /\ JeuDonnees.total_credit lignes_test == 122000
  /\ (let b := calculer_bilan_fonctionnel donnees_test in
      BilanFonctionnel.emplois_stables b == 30000
      /\ BilanFonctionnel.ressources_stables b == 110000
      /\ BilanFonctionnel.frng b == 80000
      /\ BilanFonctionnel.actifs_circulants b == 35000
      /\ BilanFonctionnel.passifs_circulants b == 12000
      /\ BilanFonctionnel.bfr b == 23000
      /\ BilanFonctionnel.tresorerie_active b == 57000
      /\ BilanFonctionnel.tresorerie_passive b == 0
      /\ BilanFonctionnel.tresorerie_nette b == 57000)
  /\ (let b := calculer_bilan_financier donnees_test in
      BilanFinancier.total_actif b == 122000
      /\ BilanFinancier.total_passif b == 122000
      /\ BilanFinancier.capital_social b == 100000
      /\ BilanFinancier.reserves b == 10000
      /\ BilanFinancier.capitaux_propres b == 110000)
  /\ (exists p r,
        calculer_patrimoine donnees_test = Py.ret p
        /\ PatrimoineEntreprise.actifs_economiques p == 122000
        /\ PatrimoineEntreprise.dettes_financieres p == 0
        /\ PatrimoineEntreprise.capitaux_propres_retraites p == 110000
        /\ PatrimoineEntreprise.ratio_endettement p = Some r
        /\ r == 0).
Proof.
  split; [split; [repeat constructor | reflexivity]|].
  split; [reflexivity|]. split; [reflexivity|].
  split; [cbv zeta; repeat split; reflexivity|].
  split; [cbv zeta; repeat split; reflexivity|].
  eexists. eexists.
  split; [apply calculer_patrimoine_ret|].
  cbn [PatrimoineEntreprise.actifs_economiques
       PatrimoineEntreprise.dettes_financieres
       PatrimoineEntreprise.capitaux_propres_retraites
       PatrimoineEntreprise.ratio_endettement].
  repeat split; reflexivity.
Qed.

(** C7.  On every valid dataset the patrimonial calculator returns, with
    both ratios set: [ratio_endettement] is 0 when [actifs_economiques]
    is 0 and [dettes_financieres / actifs_economiques] otherwise;
    [ratio_solvabilite] is 0 when [dettes_financieres] is 0 and
    [capitaux_propres_retraites / dettes_financieres] otherwise. *)
Theorem ratios_sans_division_par_zero (d : JeuDonnees.t) :
  valide d ->
  exists p re rs,
    calculer_patrimoine d = Py.ret p
    /\ PatrimoineEntreprise.ratio_endettement p = Some re
    /\ PatrimoineEntreprise.ratio_solvabilite p = Some rs
    /\ (PatrimoineEntreprise.actifs_economiques p == 0 -> re == 0)
    /\ (~ PatrimoineEntreprise.actifs_economiques p == 0 ->
        re == PatrimoineEntreprise.dettes_financieres p
              / PatrimoineEntreprise.actifs_economiques p)
    /\ (PatrimoineEntreprise.dettes_financieres p == 0 -> rs == 0)
    /\ (~ PatrimoineEntreprise.dettes_financieres p == 0 ->
        rs == PatrimoineEntreprise.capitaux_propres_retraites p
              / PatrimoineEntreprise.dettes_financieres p).
Proof.
  intros [Hl _].
  pose proof (sum_montants_nonneg (classes_sens [2; 3; 4; 5]%Z DEBIT) _ Hl)
    as Hae.
  pose proof (sum_montants_nonneg
                (classe_sens_hors_prefixe 1 CREDIT "11") _ Hl) as Hdf.
  do 3 eexists.
  split; [apply calculer_patrimoine_ret|].
  cbn [PatrimoineEntreprise.actifs_economiques
       PatrimoineEntreprise.dettes_financieres
       PatrimoineEntreprise.capitaux_propres_retraites
       PatrimoineEntreprise.ratio_endettement
       PatrimoineEntreprise.ratio_solvabilite].
  unfold somme in *.
  split; [reflexivity|]. split; [reflexivity|].
  set (ae := Py.sum (JeuDonnees.montants (classes_sens [2; 3; 4; 5]%Z DEBIT)
                       (JeuDonnees.lignes d))) in *.
  set (df := Py.sum (JeuDonnees.montants
                       (classe_sens_hors_prefixe 1 CREDIT "11")
                       (JeuDonnees.lignes d))) in *.
  repeat split.
  - intro H0. destruct (Py.gt ae 0) eqn:E; [|reflexivity].
    apply gt_iff in E. lra.
  - intro Hn. destruct (Py.gt ae 0) eqn:E; [reflexivity|].
    apply gt_false_iff in E. exfalso. apply Hn. lra.
  - intro H0. destruct (Py.gt df 0) eqn:E; [|reflexivity].
    apply gt_iff in E. lra.
  - intro Hn. destruct (Py.gt df 0) eqn:E; [reflexivity|].
    apply gt_false_iff in E. exfalso. apply Hn. lra.
Qed.

Lemma ratios_sans_division_par_zero_witness :
  valide donnees_completes
  /\ exists p re rs,
       calculer_patrimoine donnees_completes = Py.ret p
       /\ PatrimoineEntreprise.ratio_endettement p = Some re
       /\ PatrimoineEntreprise.ratio_solvabilite p = Some rs
       /\ re == 0 /\ rs == 0.
Proof.
  assert (Hv : valide donnees_completes).
  { split; [repeat constructor | reflexivity]. }
  split; [exact Hv|].
  destruct (ratios_sans_division_par_zero donnees_completes Hv)
    as (p & re & rs & Hp & Hre & Hrs & _ & Hq & Hs & _).
  exists p, re, rs.
  rewrite calculer_patrimoine_ret in Hp.
  injection Hp as <-.
  cbn [PatrimoineEntreprise.ratio_endettement
       PatrimoineEntreprise.ratio_solvabilite
       PatrimoineEntreprise.actifs_economiques
       PatrimoineEntreprise.dettes_financieres] in *.
  repeat split; try assumption.
  - rewrite Hq; [reflexivity | vm_compute; discriminate].
  - apply Hs. reflexivity.
Defined.

(** ** Alerts on the patrimonial report *)

(** [patrimoine_sans_dette] is what the calculator returns on the
    nine-entry scenario, field by field. *)
Lemma patrimoine_sans_dette_calcule :
  exists p re rs,
    calculer_patrimoine donnees_test = Py.ret p
    /\ PatrimoineEntreprise.actifs_economiques p
       == PatrimoineEntreprise.actifs_economiques patrimoine_sans_dette
    /\ PatrimoineEntreprise.dettes_financieres p
       == PatrimoineEntreprise.dettes_financieres patrimoine_sans_dette
    /\ PatrimoineEntreprise.capitaux_propres_retraites p
       == PatrimoineEntreprise.capitaux_propres_retraites patrimoine_sans_dette
    /\ PatrimoineEntreprise.ratio_endettement p = Some re /\ re == 0
    /\ PatrimoineEntreprise.ratio_solvabilite p = Some rs /\ rs == 0.
Proof.
  do 3 eexists. split; [apply calculer_patrimoine_ret|].
  cbn [PatrimoineEntreprise.actifs_economiques
       PatrimoineEntreprise.dettes_financieres
       PatrimoineEntreprise.capitaux_propres_retraites
       PatrimoineEntreprise.ratio_endettement
       PatrimoineEntreprise.ratio_solvabilite].
  repeat split; reflexivity.
Qed.

(** C8, as stated, fails: a solvency ratio of 0 is below 1, and the
    analyser raises no solvency alert, since 0 is falsy in
    [ratio_solvabilite and ratio_solvabilite < 1]. *)
Lemma alerte_solvabilite_contre_exemple :
  PatrimoineEntreprise.ratio_solvabilite patrimoine_sans_dette = Some 0
  /\ 0 < 1
  /\ exists a,
       analyser_rapport (Patrimoine patrimoine_sans_dette) = Py.ret a
       /\ ~ In msg_solvabilite (alertes a).
Proof.
  split; [reflexivity|]. split; [reflexivity|].
  eexists. split; [reflexivity|].
  cbn. tauto.
Qed.

Lemma truthy_iff (x : Q) : Py.truthy x = true <-> ~ x == 0.
Proof.
  unfold Py.truthy. rewrite negb_true_iff.
  split.
  - intros E H. apply Qeq_bool_iff in H. congruence.
  - intro H. destruct (Qeq_bool x 0) eqn:E; [|reflexivity].
    apply Qeq_bool_iff in E. contradiction.
Qed.

Lemma et_lt_iff (x : option Q) (seuil : Q) :
  et_lt x seuil = true <-> exists r, x = Some r /\ ~ r == 0 /\ r < seuil.
Proof.
  unfold et_lt. destruct x as [r|].
  - destruct (Py.truthy r) eqn:T.
    + apply truthy_iff in T. rewrite lt_iff. split.
      * intro H. now exists r.
      * intros (r' & [= <-] & _ & H). exact H.
    + split; [discriminate|].
      intros (r' & [= <-] & Hn & _). apply truthy_iff in Hn. congruence.
  - split; [discriminate|]. intros (r & H & _). discriminate.
Qed.

Lemma et_gt_iff (x : option Q) (seuil : Q) :
  et_gt x seuil = true <-> exists r, x = Some r /\ ~ r == 0 /\ seuil < r.
Proof.
  unfold et_gt. destruct x as [r|].
  - destruct (Py.truthy r) eqn:T.
    + apply truthy_iff in T. rewrite gt_iff. split.
      * intro H. now exists r.
      * intros (r' & [= <-] & _ & H). exact H.
    + split; [discriminate|].
      intros (r' & [= <-] & Hn & _). apply truthy_iff in Hn. congruence.
  - split; [discriminate|]. intros (r & H & _). discriminate.
Qed.

(** C8, as the code has it.  On every patrimonial report the analyser
    returns; the solvency alert is among the alerts exactly when
    [ratio_solvabilite] is set, non-zero and below 1; the patrimonial-debt
    alert exactly when [ratio_endettement] is set and above 0.5. *)
Theorem alertes_patrimoine (p : PatrimoineEntreprise.t) :
  exists a,
    analyser_rapport (Patrimoine p) = Py.ret a
    /\ (In msg_solvabilite (alertes a)
        <-> exists r, PatrimoineEntreprise.ratio_solvabilite p = Some r
                      /\ ~ r == 0 /\ r < 1)
    /\ (In msg_endettement_patrimonial (alertes a)
        <-> exists r, PatrimoineEntreprise.ratio_endettement p = Some r
                      /\ (1 # 2) < r).
Proof.
  eexists. split; [reflexivity|].
  assert (Hgt : et_gt (PatrimoineEntreprise.ratio_endettement p) (1 # 2) = true
                <-> exists r, PatrimoineEntreprise.ratio_endettement p = Some r
                              /\ (1 # 2) < r).
  { rewrite et_gt_iff. split.
    - intros (r & H & _ & Hr). now exists r.
    - intros (r & H & Hr). exists r. repeat split; try assumption.
      intro H0. rewrite H0 in Hr. revert Hr. apply Qle_not_lt. lra. }
  rewrite <- Hgt, <- et_lt_iff.
  unfold analyser_patrimoine.
  destruct (et_gt _ _); destruct (et_lt _ _); cbn; split; split;
    intros H; try reflexivity; try discriminate; try tauto;
    repeat (destruct H as [H|H]; try discriminate H; try contradiction).
Qed.

(** ** Constructed objects and their totals *)

Lemma ligne_valide_conforme (l : LigneCompte.t) :
  ligne_valide l <-> ligne_conforme l.
Proof.
  unfold ligne_valide, ligne_conforme, LigneCompte.post_init.
  destruct (String.eqb_spec (LigneCompte.code_compte l) "") as [Ev|Ev];
    cbn [orb].
  { rewrite Ev. cbn. split; [discriminate | intros [H _]; lia]. }
  destruct (Nat.ltb_spec (String.length (LigneCompte.code_compte l)) 3);
    [split; [discriminate | intros [H' _]; lia]|].
  destruct (Z.leb_spec 1 (LigneCompte.classe l));
    destruct (Z.leb_spec (LigneCompte.classe l) 9); cbn [andb negb];
    try (split; [discriminate | intros (_ & H' & _); lia]).
  destruct (Py.lt (LigneCompte.montant l) 0) eqn:E.
  - apply lt_iff in E. split; [discriminate|].
    intros (_ & _ & H'). exfalso. apply (Qlt_not_le _ _ E H').
  - apply lt_false_iff in E. split; [|reflexivity].
    intros _. repeat split; try assumption; lia.
Qed.

Lemma ligne_construite_valide (l : LigneCompte.t) :
  ligne_construite l -> ligne_valide l.
Proof.
  unfold ligne_construite, ligne_valide, LigneCompte.new.
  destruct l as [code lib c s m per]. cbn [LigneCompte.code_compte
    LigneCompte.libelle LigneCompte.classe LigneCompte.sens
    LigneCompte.montant LigneCompte.periode].
  destruct (LigneCompte.post_init _) as [[]|e]; cbn [Py.bind];
    [reflexivity | discriminate].
Qed.

(** Building every entry with [LigneCompte(...)] and then the dataset
    with [JeuDonnees(...)], as [validate_donnees] does, yields a valid
    dataset: it holds the given entries, at least one; every entry has a
    code of three characters or more, a class in 1..9 and a non-negative
    amount; the two direction totals are within 0.01 of each other. *)
Theorem constructions_valides
  (ls : list LigneCompte.t) (per ent : string) (d : JeuDonnees.t) :
  Forall ligne_construite ls ->
  JeuDonnees.new ls per ent = Py.ret d ->
  valide d
  /\ JeuDonnees.lignes d = ls
  /\ ls <> []
  /\ Forall ligne_conforme ls
  /\ Qabs (JeuDonnees.get_total_sens d DEBIT
           - JeuDonnees.get_total_sens d CREDIT)
     <= JeuDonnees.epsilon.
Proof.
  intros Hls Hnew.
  assert (Hv : Forall ligne_valide ls).
  { eapply Forall_impl; [|exact Hls]. apply ligne_construite_valide. }
  unfold JeuDonnees.new in Hnew.
  destruct (JeuDonnees.post_init (JeuDonnees.mk ls per ent)) as [[]|e] eqn:Hp;
    cbn [Py.bind] in Hnew; [|discriminate].
  injection Hnew as <-.
  assert (Hd : valide (JeuDonnees.mk ls per ent)) by (split; assumption).
  split; [exact Hd|]. split; [reflexivity|]. split.
  - intros ->. discriminate Hp.
  - split.
    + eapply Forall_impl; [|exact Hv]. apply ligne_valide_conforme.
    + apply (valide_equilibre _ Hd).
Qed.

Lemma constructions_valides_witness :
  Forall ligne_construite lignes_test
  /\ JeuDonnees.new lignes_test "2024" "Test Entreprise" = Py.ret donnees_test
  /\ valide donnees_test.
Proof.
  assert (H1 : Forall ligne_construite lignes_test) by (repeat constructor).
  assert (H2 : JeuDonnees.new lignes_test "2024" "Test Entreprise"
               = Py.ret donnees_test) by reflexivity.
  split; [exact H1|]. split; [exact H2|].
  exact (proj1 (constructions_valides _ _ _ _ H1 H2)).
Defined.

Section Totaux.

Variable ls : list LigneCompte.t.

Local Abbreviation T c := (Py.sum (JeuDonnees.montants c ls)).

Lemma total_classe_hors_plage_lignes (k : Z) :
  Forall ligne_valide ls -> (k < 1 \/ 9 < k)%Z ->
  T (fun l => (LigneCompte.classe l =? k)%Z) == 0.
Proof.
  intros Hv Hk. induction Hv as [|x l Hx _ IH]; [reflexivity|].
  rewrite sum_montants_cons, IH.
  apply ligne_valide_conforme in Hx. destruct Hx as (_ & Hc & _).
  destruct (Z.eqb_spec (LigneCompte.classe x) k); [exfalso; lia | lra].
Qed.

End Totaux.

(** For a valid dataset, [get_total_classe] is never negative, and it is
    0 for a class outside 1..9. *)
Theorem total_classe_bornes (d : JeuDonnees.t) (k : Z) :
  valide d ->
  0 <= JeuDonnees.get_total_classe d k
  /\ ((k < 1 \/ 9 < k)%Z -> JeuDonnees.get_total_classe d k == 0).
Proof.
  intros [Hv _]. unfold JeuDonnees.get_total_classe. split.
  - now apply sum_montants_nonneg.
  - apply (total_classe_hors_plage_lignes _ _ Hv).
Qed.

Lemma total_classe_bornes_witness :
  valide donnees_completes
  /\ 0 <= JeuDonnees.get_total_classe donnees_completes 2
  /\ JeuDonnees.get_total_classe donnees_completes 10 == 0.
Proof.
  assert (Hv : valide donnees_completes).
  { split; [repeat constructor | reflexivity]. }
  split; [exact Hv|].
  destruct (total_classe_bornes donnees_completes 2 Hv) as [H2 _].
  destruct (total_classe_bornes donnees_completes 10 Hv) as [_ H10].
  split; [exact H2|]. apply H10. right. reflexivity.
Defined.

(** ** Further bucket algebra *)

(** A code that starts with "14" does not start with "11". *)
Lemma startswith_14_11 (code : string) :
  Py.startswith code "14" = true -> Py.startswith code "11" = false.
Proof.
  unfold Py.startswith.
  destruct code as [|a [|b r]]; cbn [String.prefix]; try discriminate.
  - destruct (Ascii.ascii_dec _ a); discriminate.
  - destruct (Ascii.ascii_dec _ a); [|discriminate].
    destruct (Ascii.ascii_dec _ b) as [<-|]; [|discriminate].
    intros _. destruct (Ascii.ascii_dec _ _); [discriminate | reflexivity].
Qed.

(** Close one classified case, the prefixes "11", "111" and "14"
    considered together. *)
Ltac clore_prefixes :=
  solve [ lra
        | exfalso; lia
        | exfalso;
          repeat match goal with
                 | E : Py.startswith ?code "111" = true |- _ =>
                     apply startswith_111_11 in E
                 | E : Py.startswith ?code "14" = true |- _ =>
                     apply startswith_14_11 in E
                 end;
          congruence ].

Ltac par_ligne_prefixes ls :=
  induction ls as [|x ? IH];
  [ vm_compute; reflexivity
  | rewrite !sum_montants_cons; nommer_sommes; classer x; clore_prefixes ].

Section AutresRubriques.

Variable ls : list LigneCompte.t.

Local Abbreviation S c := (Py.sum (JeuDonnees.montants c ls)).

(** Long-term debt (prefix "14") is part of the class-1 credits outside
    prefix "11". *)
Lemma dettes_lt_incluses :
  S (classe_sens_hors_prefixe 1 CREDIT "11")
  == S (classe_sens_prefixe 1 CREDIT "14")
     + S (fun l => classe_sens_hors_prefixe 1 CREDIT "11" l
                   && negb (Py.startswith (LigneCompte.code_compte l) "14")).
Proof. par_ligne_prefixes ls. Qed.

End AutresRubriques.

(** ** Further properties of the three calculators *)

Lemma max0_ge (x : Q) : 0 <= Py.max0 x /\ x <= Py.max0 x.
Proof.
  unfold Py.max0. destruct (Py.gt x 0) eqn:E.
  - apply gt_iff in E. lra.
  - apply gt_false_iff in E. lra.
Qed.

(** On a valid dataset the equity of the financial report is bounded:
    [0 <= capital_social + reserves <= capitaux_propres <= total_passif]. *)
Theorem capitaux_propres_bornes (d : JeuDonnees.t) :
  valide d ->
  let f := calculer_bilan_financier d in
  0 <= BilanFinancier.capital_social f + BilanFinancier.reserves f
  /\ BilanFinancier.capital_social f + BilanFinancier.reserves f
     <= BilanFinancier.capitaux_propres f
  /\ BilanFinancier.capitaux_propres f <= BilanFinancier.total_passif f.
Proof.
  intros [Hv _].
  cbn [calculer_bilan_financier BilanFinancier.capital_social
       BilanFinancier.reserves BilanFinancier.capitaux_propres
       BilanFinancier.total_passif].
  unfold somme.
  repeat match goal with
         | |- context [Py.sum (JeuDonnees.montants ?c ?l)] =>
             let S := fresh "S" in
             let H := fresh "H" in
             pose proof (sum_montants_nonneg c l Hv) as H;
             set (S := Py.sum (JeuDonnees.montants c l)) in *; clearbody S
         end.
  match goal with
  | |- context [Py.max0 ?x] => pose proof (max0_ge x) as [Hm _]
  end.
  repeat split; lra.
Qed.

Lemma capitaux_propres_bornes_witness :
  valide donnees_completes
  /\ BilanFinancier.capitaux_propres (calculer_bilan_financier donnees_completes)
     <= BilanFinancier.total_passif (calculer_bilan_financier donnees_completes).
Proof.
  assert (Hv : valide donnees_completes).
  { split; [repeat constructor | reflexivity]. }
  split; [exact Hv|].
  exact (proj2 (proj2 (capitaux_propres_bornes donnees_completes Hv))).
Defined.

(** On a valid dataset the long-term debt of the financial report
    (class-1 credits under "14") is at most the financial debt of the
    patrimonial report (class-1 credits outside "11"). *)
Theorem dettes_lt_le_dettes_financieres (d : JeuDonnees.t) :
  valide d ->
  exists p,
    calculer_patrimoine d = Py.ret p
    /\ BilanFinancier.dettes_financieres_lt (calculer_bilan_financier d)
       <= PatrimoineEntreprise.dettes_financieres p.
Proof.
  intros [Hv _].
  eexists. split; [apply calculer_patrimoine_ret|].
  cbn [PatrimoineEntreprise.dettes_financieres calculer_bilan_financier
       BilanFinancier.dettes_financieres_lt].
  unfold somme. rewrite (dettes_lt_incluses (JeuDonnees.lignes d)).
  match goal with
  | |- _ <= _ + Py.sum (JeuDonnees.montants ?c ?l) =>
      pose proof (sum_montants_nonneg c l Hv)
  end.
  lra.
Qed.

Lemma dettes_lt_le_dettes_financieres_witness :
  valide donnees_provision
  /\ exists p,
       calculer_patrimoine donnees_provision = Py.ret p
       /\ BilanFinancier.dettes_financieres_lt
            (calculer_bilan_financier donnees_provision)
          <= PatrimoineEntreprise.dettes_financieres p.
Proof.
  assert (Hv : valide donnees_provision).
  { split; [repeat constructor | reflexivity]. }
  split; [exact Hv|].
  exact (dettes_lt_le_dettes_financieres donnees_provision Hv).
Defined.

(** On a valid dataset [ratio_endettement] is set and non-negative, and
    it is at most 1 whenever [patrimoine_net] is non-negative. *)
Theorem ratio_endettement_borne (d : JeuDonnees.t) :
  valide d ->
  exists p re,
    calculer_patrimoine d = Py.ret p
    /\ PatrimoineEntreprise.ratio_endettement p = Some re
    /\ 0 <= re
    /\ (0 <= PatrimoineEntreprise.patrimoine_net p -> re <= 1).
Proof.
  intros [Hv _].
  do 2 eexists. split; [apply calculer_patrimoine_ret|].
  cbn [PatrimoineEntreprise.ratio_endettement
       PatrimoineEntreprise.patrimoine_net].
  split; [reflexivity|].
  unfold somme.
  pose proof (sum_montants_nonneg (classe_sens_hors_prefixe 1 CREDIT "11")
                _ Hv) as Hdf.
  set (ae := Py.sum (JeuDonnees.montants (classes_sens [2; 3; 4; 5]%Z DEBIT)
                       (JeuDonnees.lignes d))) in *.
  set (df := Py.sum (JeuDonnees.montants
                       (classe_sens_hors_prefixe 1 CREDIT "11")
                       (JeuDonnees.lignes d))) in *.
  destruct (Py.gt ae 0) eqn:E.
  - apply gt_iff in E. split.
    + apply Qle_shift_div_l; [exact E | lra].
    + intro Hn. apply Qle_shift_div_r; [exact E | lra].
  - split; [lra | intros _; lra].
Qed.

Lemma ratio_endettement_borne_witness :
  valide donnees_provision
  /\ exists p re,
       calculer_patrimoine donnees_provision = Py.ret p
       /\ PatrimoineEntreprise.ratio_endettement p = Some re
       /\ 0 <= re
       /\ (0 <= PatrimoineEntreprise.patrimoine_net p -> re <= 1).
Proof.
  assert (Hv : valide donnees_provision).
  { split; [repeat constructor | reflexivity]. }
  split; [exact Hv|].
  exact (ratio_endettement_borne donnees_provision Hv).
Defined.

(** ** Further properties of the analyser *)

(** On a functional report the analyser returns, and its lists say:
    the FRNG key point exactly when [frng > 0], the FRNG alert exactly
    when [frng <= 0]; the BFR key point, which carries the value of
    [bfr], exactly when [bfr > 0]; the treasury alert exactly when
    [tresorerie_nette < 0]; and there are at least as many
    recommendations as alerts. *)
Theorem analyser_fonctionnel_messages (r : BilanFonctionnel.t) :
  exists a,
    analyser_rapport (Fonctionnel r) = Py.ret a
    /\ (In msg_frng_positif (points_cles a) <-> 0 < BilanFonctionnel.frng r)
    /\ (In msg_frng_negatif (alertes a) <-> BilanFonctionnel.frng r <= 0)
    /\ (In (msg_bfr_positif (BilanFonctionnel.bfr r)) (points_cles a)
        <-> 0 < BilanFonctionnel.bfr r)
    /\ (In msg_tresorerie_negative (alertes a)
        <-> BilanFonctionnel.tresorerie_nette r < 0)
    /\ (List.length (alertes a) <= List.length (recommandations a))%nat.
Proof.
  eexists. split; [reflexivity|].
  unfold analyser_fonctionnel.
  destruct (Py.gt (BilanFonctionnel.frng r) 0) eqn:Ef;
    [apply gt_iff in Ef | apply gt_false_iff in Ef];
  (destruct (Py.gt (BilanFonctionnel.bfr r) 0) eqn:Eb;
    [apply gt_iff in Eb | apply gt_false_iff in Eb]);
  (destruct (Py.lt (BilanFonctionnel.tresorerie_nette r) 0) eqn:Et;
    [apply lt_iff in Et | apply lt_false_iff in Et]);
  cbn;
  repeat split; intros;
    repeat match goal with
           | H : _ \/ _ |- _ => destruct H
           | H : False |- _ => destruct H
           | H : _ = _ |- _ => discriminate H
           end;
    try assumption; try lia; try tauto;
    try (exfalso; lra).
Qed.

(** Two hypotheses [x < y] and [y <= x]. *)
Ltac absurde_ordre :=
  exfalso;
  match goal with
  | H1 : ?x < ?y, H2 : ?y <= ?x |- _ => exact (Qlt_not_le _ _ H1 H2)
  end.

(** When the analyser returns on a financial report, it has no key
    point; the debt alert is raised exactly when [total_actif > 0] and
    [(total_passif - capitaux_propres) / total_actif > 0.7], and the
    recommendation to reduce debt comes exactly with it; the autonomy
    alert is raised exactly when [total_actif > 0] and
    [capitaux_propres / total_passif < 0.3]. *)
Theorem analyser_financier_alertes (r : BilanFinancier.t) (a : analyse) :
  analyser_rapport (Financier r) = Py.ret a ->
  points_cles a = []
  /\ (In msg_endettement_eleve (alertes a)
      <-> 0 < BilanFinancier.total_actif r
          /\ (7 # 10) < (BilanFinancier.total_passif r
                         - BilanFinancier.capitaux_propres r)
                        / BilanFinancier.total_actif r)
  /\ (In msg_reduire (recommandations a)
      <-> In msg_endettement_eleve (alertes a))
  /\ (In msg_faible_autonomie (alertes a)
      <-> 0 < BilanFinancier.total_actif r
          /\ BilanFinancier.capitaux_propres r / BilanFinancier.total_passif r
             < (3 # 10)).
Proof.
  unfold analyser_rapport, analyser_financier, Py.truediv.
  destruct (Py.gt (BilanFinancier.total_actif r) 0) eqn:Ea;
    [apply gt_iff in Ea | apply gt_false_iff in Ea].
  - destruct (Qeq_bool (BilanFinancier.total_actif r) 0); cbn [Py.bind];
      [discriminate|].
    destruct (Qeq_bool (BilanFinancier.total_passif r) 0); cbn [Py.bind];
      [discriminate|].
    intros [= <-].
    destruct (Py.gt _ (7 # 10)) eqn:Ee;
      [apply gt_iff in Ee | apply gt_false_iff in Ee];
    (destruct (Py.lt _ (3 # 10)) eqn:Ef;
      [apply lt_iff in Ef | apply lt_false_iff in Ef]);
    cbn;
    repeat split; intros;
      repeat match goal with
             | H : _ /\ _ |- _ => destruct H
             | H : _ \/ _ |- _ => destruct H
             | H : False |- _ => destruct H
             | H : _ = _ |- _ => discriminate H
             end;
      try assumption; try tauto; auto;
      try absurde_ordre.
  - intros [= <-]. cbn.
    repeat split; intros;
      repeat match goal with
             | H : _ /\ _ |- _ => destruct H
             | H : False |- _ => destruct H
             end;
      try absurde_ordre.
Qed.

Lemma analyser_financier_alertes_witness :
  exists a,
    analyser_rapport (Financier (calculer_bilan_financier donnees_completes))
    = Py.ret a
    /\ points_cles a = [].
Proof.
  eexists.
  assert (H : analyser_rapport
                (Financier (calculer_bilan_financier donnees_completes))
              = Py.ret (mk_analyse [] [] [])) by reflexivity.
  split; [exact H|].
  exact (proj1 (analyser_financier_alertes _ _ H)).
Defined.

(** ** The exporter's analysis *)

(** [_generer_analyse] returns on every report: its only division is by
    [total_actif], under the test [total_actif > 0]. *)
Theorem generer_analyse_retourne
  (r : rapport) (options : list (string * string)) :
  exists a, SimpleExporter._generer_analyse r options = Py.ret a.
Proof.
  destruct r as [b|b|p|]; cbn [SimpleExporter._generer_analyse];
    try (eexists; reflexivity).
  destruct (Py.gt (BilanFinancier.total_actif b) 0) eqn:E;
    [|eexists; reflexivity].
  apply gt_iff in E.
  rewrite truediv_ok
    by (intro H0; rewrite H0 in E; apply (Qlt_irrefl _ E)).
  eexists. reflexivity.
Qed.

(** Whenever the calculator's analyser returns on a report, the
    exporter's analysis of the same report has no more key points, no
    more alerts and no more recommendations. *)
Theorem generer_analyse_plus_courte
  (r : rapport) (options : list (string * string)) (a e : analyse) :
  analyser_rapport r = Py.ret a ->
  SimpleExporter._generer_analyse r options = Py.ret e ->
  (List.length (points_cles e) <= List.length (points_cles a))%nat
  /\ (List.length (alertes e) <= List.length (alertes a))%nat
  /\ (List.length (recommandations e) <= List.length (recommandations a))%nat.
Proof.
  destruct r as [b|b|p|];
    cbn [analyser_rapport SimpleExporter._generer_analyse].
  - unfold analyser_fonctionnel. intros [= <-] [= <-].
    destruct (Py.gt (BilanFonctionnel.frng b) 0);
      destruct (Py.gt (BilanFonctionnel.bfr b) 0);
      destruct (Py.lt (BilanFonctionnel.tresorerie_nette b) 0);
      cbn; lia.
  - unfold analyser_financier, Py.truediv.
    destruct (Py.gt (BilanFinancier.total_actif b) 0).
    + destruct (Qeq_bool (BilanFinancier.total_actif b) 0); cbn [Py.bind];
        [discriminate|].
      destruct (Qeq_bool (BilanFinancier.total_passif b) 0); cbn [Py.bind];
        [discriminate|].
      intros [= <-] [= <-].
      destruct (Py.gt _ (7 # 10)); destruct (Py.lt _ (3 # 10)); cbn; lia.
    + intros [= <-] [= <-]. cbn. lia.
  - unfold analyser_patrimoine. intros [= <-] [= <-].
    destruct (et_gt _ _); destruct (et_lt _ _); cbn; lia.
  - intros [= <-] [= <-]. cbn. lia.
Qed.

Lemma generer_analyse_plus_courte_witness :
  exists a e,
    analyser_rapport (Fonctionnel (calculer_bilan_fonctionnel donnees_test))
    = Py.ret a
    /\ SimpleExporter._generer_analyse
         (Fonctionnel (calculer_bilan_fonctionnel donnees_test)) []
       = Py.ret e
    /\ (List.length (alertes e) <= List.length (alertes a))%nat.
Proof.
  do 2 eexists.
  assert (Ha : analyser_rapport
                 (Fonctionnel (calculer_bilan_fonctionnel donnees_test))
               = Py.ret (analyser_fonctionnel
                           (calculer_bilan_fonctionnel donnees_test)
                           analyse_vide)) by reflexivity.
  assert (He : SimpleExporter._generer_analyse
                 (Fonctionnel (calculer_bilan_fonctionnel donnees_test)) []
               = Py.ret (mk_analyse [Py.lit "FRNG positif"] [] []))
    by reflexivity.
  split; [exact Ha|]. split; [exact He|].
  exact (proj1 (proj2 (generer_analyse_plus_courte _ _ _ _ Ha He))).
Defined.

(** ** The helper methods of the document exporters *)

(** The recommendation list of a functional report is never empty; the
    closing sentence on a balanced structure is in it exactly when
    [frng >= 0], [bfr <= frng] and [tresorerie_nette >= 0], and is then
    the only recommendation. *)
Theorem recommendations_jamais_vides (b : BilanFonctionnel.t) :
  let recs := DocxExporter._get_bilan_fonctionnel_recommendations b in
  recs <> []
  /\ (In DocxExporter.msg_equilibree recs
      <-> 0 <= BilanFonctionnel.frng b
          /\ BilanFonctionnel.bfr b <= BilanFonctionnel.frng b
          /\ 0 <= BilanFonctionnel.tresorerie_nette b)
  /\ (In DocxExporter.msg_equilibree recs
      -> recs = [DocxExporter.msg_equilibree]).
Proof.
  unfold DocxExporter._get_bilan_fonctionnel_recommendations.
  destruct (Py.lt (BilanFonctionnel.frng b) 0) eqn:Ef;
    [apply lt_iff in Ef | apply lt_false_iff in Ef];
  (destruct (Py.gt (BilanFonctionnel.bfr b) (BilanFonctionnel.frng b)) eqn:Eb;
    [apply gt_iff in Eb | apply gt_false_iff in Eb]);
  (destruct (Py.lt (BilanFonctionnel.tresorerie_nette b) 0) eqn:Et;
    [apply lt_iff in Et | apply lt_false_iff in Et]);
  cbn;
  repeat split; intros;
    repeat match goal with
           | H : _ /\ _ |- _ => destruct H
           | H : _ \/ _ |- _ => destruct H
           | H : False |- _ => destruct H
           | H : _ = _ |- _ => discriminate H
           end;
    try assumption; try discriminate; auto; try absurde_ordre.
Qed.

(** [_interpret_ratio] answers "Non calculable" exactly on [None], and
    "Moyen" exactly on a ratio strictly between the two thresholds: with
    [good_threshold >= bad_threshold] it never answers "Moyen". *)
Theorem interpret_ratio_moyen (ratio : option Q) (good bad : Q) :
  (DocxExporter._interpret_ratio ratio good bad = "Non calculable"
   <-> ratio = None)
  /\ (DocxExporter._interpret_ratio ratio good bad = "🟡 Moyen"
      <-> exists r, ratio = Some r /\ good < r /\ r < bad)
  /\ (bad <= good ->
      DocxExporter._interpret_ratio ratio good bad <> "🟡 Moyen").
Proof.
  assert (Hm : DocxExporter._interpret_ratio ratio good bad = "🟡 Moyen"
               <-> exists r, ratio = Some r /\ good < r /\ r < bad).
  { unfold DocxExporter._interpret_ratio. destruct ratio as [r|].
    - destruct (Qle_bool r good) eqn:Eg.
      + apply Qle_bool_iff in Eg. split; [discriminate|].
        intros (r' & [= <-] & H & _). absurde_ordre.
      + assert (Hg : good < r).
        { apply Qnot_le_lt. intro H. apply Qle_bool_iff in H. congruence. }
        destruct (Qle_bool bad r) eqn:Eb.
        * apply Qle_bool_iff in Eb. split; [discriminate|].
          intros (r' & [= <-] & _ & H). absurde_ordre.
        * assert (Hb : r < bad).
          { apply Qnot_le_lt. intro H. apply Qle_bool_iff in H. congruence. }
          split; [|reflexivity]. intros _. now exists r.
    - split; [discriminate|]. intros (r & H & _). discriminate. }
  split; [|split; [exact Hm|]].
  - unfold DocxExporter._interpret_ratio. destruct ratio as [r|].
    + destruct (Qle_bool r good); [|destruct (Qle_bool bad r)];
        split; discriminate.
    + split; reflexivity.
  - intros Hbg H. apply Hm in H. destruct H as (r & _ & Hg & Hb).
    apply (Qlt_not_le _ _ (Qlt_trans _ _ _ Hg Hb) Hbg).
Qed.

(** The verdicts of the ratio table against the analyser's alerts, on a
    patrimonial report whose debt ratio is set: the patrimonial-debt
    alert is raised exactly when the verdict on [ratio_endettement]
    (thresholds 0.5 and 0.8) is not "Bon"; a solvency alert excludes the
    verdict "Solvable"; and a liquidity ratio of 1 (thresholds 1.0 and
    0.8) is always "Bon". *)
Theorem verdicts_et_alertes (p : PatrimoineEntreprise.t) (re : Q) :
  PatrimoineEntreprise.ratio_endettement p = Some re ->
  exists a,
    analyser_rapport (Patrimoine p) = Py.ret a
    /\ (In msg_endettement_patrimonial (alertes a)
        <-> DocxExporter._interpret_ratio (Some re) (1 # 2) (4 # 5)
            <> "✅ Bon")
    /\ (In msg_solvabilite (alertes a)
        -> DocxExporter._interpret_solvability
             (PatrimoineEntreprise.ratio_solvabilite p)
           <> "✅ Solvable")
    /\ DocxExporter._interpret_ratio (Some 1) 1 (4 # 5) = "✅ Bon".
Proof.
  intro Hre. eexists. split; [reflexivity|].
  unfold analyser_patrimoine. rewrite Hre.
  split; [|split; [|reflexivity]].
  - unfold DocxExporter._interpret_ratio, et_gt.
    destruct (Qle_bool re (1 # 2)) eqn:Eg.
    + apply Qle_bool_iff in Eg.
      assert (Hgt : Py.gt re (1 # 2) = false) by now apply gt_false_iff.
      rewrite Hgt. destruct (Py.truthy re);
        destruct (et_lt _ _); cbn; split; intros H;
        repeat match goal with
               | H : _ \/ _ |- _ => destruct H
               | H : False |- _ => destruct H
               | H : _ = _ |- _ => discriminate H
               end; try (exfalso; now apply H).
    + assert (Hg : (1 # 2) < re).
      { apply Qnot_le_lt. intro H. apply Qle_bool_iff in H. congruence. }
      assert (Ht : Py.truthy re = true).
      { apply truthy_iff. intro H0. rewrite H0 in Hg. revert Hg.
        apply Qle_not_lt. lra. }
      assert (Hgt : Py.gt re (1 # 2) = true) by now apply gt_iff.
      rewrite Ht, Hgt.
      destruct (Qle_bool (4 # 5) re); destruct (et_lt _ _); cbn;
        split; intros H; try discriminate; auto.
  - destruct (et_lt (PatrimoineEntreprise.ratio_solvabilite p) 1) eqn:El.
    + intros _. apply et_lt_iff in El. destruct El as (r & Hr0 & _ & Hr).
      rewrite Hr0. unfold DocxExporter._interpret_solvability.
      destruct (Py.gt r 1) eqn:E1.
      * apply gt_iff in E1. exfalso.
        apply (Qlt_irrefl _ (Qlt_trans _ _ _ E1 Hr)).
      * destruct (Py.gt r (1 # 2)); discriminate.
    + destruct (et_gt (Some re) (1 # 2)); cbn; intros H;
        repeat (destruct H as [H|H]; try discriminate H);
        contradiction.
Qed.

Lemma verdicts_et_alertes_witness :
  PatrimoineEntreprise.ratio_endettement patrimoine_sans_dette = Some 0
  /\ exists a,
       analyser_rapport (Patrimoine patrimoine_sans_dette) = Py.ret a
       /\ (In msg_endettement_patrimonial (alertes a)
           <-> DocxExporter._interpret_ratio (Some 0) (1 # 2) (4 # 5)
               <> "✅ Bon").
Proof.
  assert (H : PatrimoineEntreprise.ratio_endettement patrimoine_sans_dette
              = Some 0) by reflexivity.
  split; [exact H|].
  destruct (verdicts_et_alertes patrimoine_sans_dette 0 H) as (a & Ha & Hd & _).
  exists a. split; assumption.
Defined.

(** [_analyze_bilan_financier] returns on every financial report, both
    divisions being by [total_actif] under the test [total_actif > 0];
    with no positive asset total its text is empty. *)
Theorem analyze_bilan_financier_retourne (b : BilanFinancier.t) :
  exists texte,
    DocxExporter._analyze_bilan_financier b = Py.ret texte
    /\ (BilanFinancier.total_actif b <= 0 -> texte = "").
Proof.
  unfold DocxExporter._analyze_bilan_financier.
  destruct (Py.gt (BilanFinancier.total_actif b) 0) eqn:E.
  - apply gt_iff in E.
    rewrite !truediv_ok
      by (intro H0; rewrite H0 in E; apply (Qlt_irrefl _ E)).
    cbn [Py.bind]. eexists. split; [reflexivity|].
    intro H. absurde_ordre.
  - cbn [Py.bind]. eexists. split; reflexivity.
Qed.

(** ** The same amounts, added in a different order

    Two totals over the same entries select the same amounts; what they
    return agrees in exact arithmetic, and in binary64 only up to
    rounding. *)

Lemma filter_partage {A : Type} (r p q : A -> bool) (l : list A) :
  (forall x, r x = p x || q x) ->
  (forall x, p x && q x = false) ->
  Permutation (filter r l) (filter p l ++ filter q l).
Proof.
  intros Hr Hd. induction l as [|a l IH]; [constructor|].
  cbn [filter]. rewrite (Hr a). specialize (Hd a).
  destruct (p a), (q a); cbn [orb andb] in *; try discriminate.
  - cbn [app]. now constructor.
  - now apply Permutation_cons_app.
  - exact IH.
Qed.

Lemma sum_app (l1 l2 : list Q) : Py.sum (l1 ++ l2) == Py.sum l1 + Py.sum l2.
Proof.
  induction l1 as [|x l1 IH]; cbn [app].
  - unfold Py.sum at 2. cbn [fold_left]. lra.
  - rewrite !sum_cons, IH. lra.
Qed.

Lemma sum_perm (l l' : list Q) : Permutation l l' -> Py.sum l == Py.sum l'.
Proof.
  induction 1 as [|x l l' _ IH|x y l|l l' l'' _ IH1 _ IH2].
  - reflexivity.
  - now rewrite !sum_cons, IH.
  - rewrite !sum_cons. lra.
  - now rewrite IH1.
Qed.

(** A float above zero is not equal to zero. *)
Lemma gt_non_nul (y : float) :
  Binary64.gt y 0 = true -> PrimFloat.eqb y 0 = false.
Proof.
  unfold Binary64.gt. rewrite ltb_spec, eqb_spec.
  destruct (Prim2SF y) as [s|s| |s m e]; vm_compute;
    try discriminate; try reflexivity;
    destruct s; try discriminate; reflexivity.
Qed.

(** The binary64 [calculer_patrimoine] returns on every dataset. *)
Lemma calculer_patrimoine_binary64_ret
  (sum : list float -> float) (d : Binary64.JeuDonnees.t) :
  let ae := Binary64.somme sum
              (Binary64.classes_sens [2; 3; 4; 5]%Z DEBIT) d in
  let df := Binary64.somme sum
              (Binary64.classe_sens_hors_prefixe 1 CREDIT "11") d in
  let cpr := Binary64.somme sum
               (Binary64.classe_sens_prefixe 1 CREDIT "11") d in
  Binary64.calculer_patrimoine sum d
  = Py.ret (Binary64.PatrimoineEntreprise.mk ae df (ae - df)%float cpr
              (ae - df)%float (Binary64.JeuDonnees.periode d)
              (Some (if Binary64.gt ae 0 then (df / ae)%float else 0%float))
              (Some (if Binary64.gt df 0 then (cpr / df)%float else 0%float))
              (Some 1%float)).
Proof.
  intros ae df cpr. unfold Binary64.calculer_patrimoine, Binary64.truediv.
  fold ae df cpr.
  destruct (Binary64.gt ae 0) eqn:Eae; destruct (Binary64.gt df 0) eqn:Edf;
    rewrite ?(gt_non_nul _ Eae), ?(gt_non_nul _ Edf); reflexivity.
Qed.

(** Decide a fact about one binary64 entry by its class, direction and
    code prefixes. *)
Ltac cas_ligne :=
  intros [code lib c s m per];
  unfold Binary64.debit_classes_2_a_5, Binary64.reserve,
    Binary64.classe_sens, Binary64.classes_sens,
    Binary64.classe_sens_prefixe, Binary64.classe_sens_hors_prefixe,
    Py.is_in;
  cbn [existsb Binary64.LigneCompte.classe Binary64.LigneCompte.sens
       Binary64.LigneCompte.code_compte];
  destruct s; cbn [Sens_eqb];
  repeat match goal with
         | |- context [(c =? ?k)%Z] => destruct (Z.eqb_spec c k)
         | |- context [(c <=? ?k)%Z] => destruct (Z.leb_spec c k)
         | |- context [(?k <=? c)%Z] => destruct (Z.leb_spec k c)
         end;
  repeat match goal with
         | |- context [Py.startswith code ?p] =>
             let E := fresh "E" in destruct (Py.startswith code p) eqn:E
         end;
  cbn [andb orb negb];
  solve [ reflexivity
        | exfalso; lia
        | exfalso;
          match goal with
          | E : Py.startswith ?code "111" = true |- _ =>
              apply startswith_111_11 in E; congruence
          end ].

Section MemesMontants.

Variable ls : list Binary64.LigneCompte.t.

Local Abbreviation M c := (Binary64.JeuDonnees.montants c ls).

(** The five asset buckets select, between them, the debit entries of
    classes 2 to 5, each once. *)
Lemma actif_memes_montants :
  Permutation
    (M Binary64.debit_classes_2_a_5)
    (M (Binary64.classe_sens 2 DEBIT) ++ M (Binary64.classe_sens 3 DEBIT)
     ++ M (Binary64.classe_sens_prefixe 4 DEBIT "342")
     ++ M (Binary64.classe_sens_hors_prefixe 4 DEBIT "342")
     ++ M (Binary64.classe_sens 5 DEBIT)).
Proof.
  unfold Binary64.JeuDonnees.montants. rewrite <- !map_app.
  apply Permutation_map.
  etransitivity.
  { apply (filter_partage _ (Binary64.classe_sens 2 DEBIT)
             (Binary64.classes_sens [3; 4; 5]%Z DEBIT)); cas_ligne. }
  apply Permutation_app_head. etransitivity.
  { apply (filter_partage _ (Binary64.classe_sens 3 DEBIT)
             (Binary64.classes_sens [4; 5]%Z DEBIT)); cas_ligne. }
  apply Permutation_app_head. etransitivity.
  { apply (filter_partage _ (Binary64.classe_sens 4 DEBIT)
             (Binary64.classe_sens 5 DEBIT)); cas_ligne. }
  rewrite app_assoc. apply Permutation_app_tail.
  apply filter_partage; cas_ligne.
Qed.

(** "111" and "11 but not 111" select, between them, the class-1
    credits under "11", each once. *)
Lemma capitaux_memes_montants :
  Permutation
    (M (Binary64.classe_sens_prefixe 1 CREDIT "11"))
    (M (Binary64.classe_sens_prefixe 1 CREDIT "111") ++ M Binary64.reserve).
Proof.
  unfold Binary64.JeuDonnees.montants. rewrite <- map_app.
  apply Permutation_map. apply filter_partage; cas_ligne.
Qed.

Lemma actifs_economiques_intervalle :
  M (Binary64.classes_sens [2; 3; 4; 5]%Z DEBIT)
  = M Binary64.debit_classes_2_a_5.
Proof.
  unfold Binary64.JeuDonnees.montants. f_equal. apply filter_ext. cas_ligne.
Qed.

End MemesMontants.

(** C4, as stated, fails.  On a valid dataset with debits of 0.3, 0.2 and
    0.1 in classes 5, 3 and 2, [total_actif] adds the bucket sums in the
    order 0.1, 0.2, 0.3 and is 0.6000000000000001, while
    [actifs_economiques] adds the entries in ledger order and is 0.6:
    the two are not equal, under either version of [sum]. *)
Lemma total_actif_contre_exemple :
  Binary64.actif_differe Binary64.sum_gauche
  /\ Binary64.actif_differe Binary64.sum_compense.
Proof.
  split;
    (split; [split; [repeat constructor | vm_compute; reflexivity]|]);
    eexists; (split; [vm_compute; reflexivity|]);
    repeat split; vm_compute; reflexivity.
Qed.

(** C4, as the code has it.  On every dataset, [actifs_economiques] is
    the sum of the amounts of the debit entries of classes 2 to 5, and
    [total_actif] is the sum of five bucket sums whose amounts are,
    between them, those same amounts, each once; the two totals are
    therefore equal when the additions are exact, and in binary64 they
    agree only up to rounding. *)
Theorem total_actif_memes_montants
  (sum : list float -> float) (d : Binary64.JeuDonnees.t) :
  let ls := Binary64.JeuDonnees.lignes d in
  let l2 := Binary64.JeuDonnees.montants (Binary64.classe_sens 2 DEBIT) ls in
  let l3 := Binary64.JeuDonnees.montants (Binary64.classe_sens 3 DEBIT) ls in
  let l4c := Binary64.JeuDonnees.montants
               (Binary64.classe_sens_prefixe 4 DEBIT "342") ls in
  let l4a := Binary64.JeuDonnees.montants
               (Binary64.classe_sens_hors_prefixe 4 DEBIT "342") ls in
  let l5 := Binary64.JeuDonnees.montants (Binary64.classe_sens 5 DEBIT) ls in
  let tous := Binary64.JeuDonnees.montants Binary64.debit_classes_2_a_5 ls in
  exists p,
    Binary64.calculer_patrimoine sum d = Py.ret p
    /\ Binary64.PatrimoineEntreprise.actifs_economiques p = sum tous
    /\ Binary64.BilanFinancier.total_actif
         (Binary64.calculer_bilan_financier sum d)
       = (sum l2 + sum l3 + sum l4c + sum l4a + sum l5)%float
    /\ Permutation tous (l2 ++ l3 ++ l4c ++ l4a ++ l5)
    /\ Py.sum (map Binary64.valeur tous)
       == Py.sum (map Binary64.valeur l2) + Py.sum (map Binary64.valeur l3)
          + Py.sum (map Binary64.valeur l4c) + Py.sum (map Binary64.valeur l4a)
          + Py.sum (map Binary64.valeur l5).
Proof.
  intros ls l2 l3 l4c l4a l5 tous.
  pose proof (actif_memes_montants ls) as Hp. fold l2 l3 l4c l4a l5 tous in Hp.
  eexists. split; [apply calculer_patrimoine_binary64_ret|].
  cbn [Binary64.PatrimoineEntreprise.actifs_economiques
       Binary64.calculer_bilan_financier
       Binary64.BilanFinancier.total_actif].
  split.
  { unfold Binary64.somme. fold ls. now rewrite actifs_economiques_intervalle. }
  split; [reflexivity|]. split; [exact Hp|].
  rewrite (sum_perm _ _ (Permutation_map Binary64.valeur Hp)).
  rewrite !map_app, !sum_app. ring.
Qed.

(** C10, as stated, fails.  On a valid dataset with class-1 credits of
    0.3 under "119" and of 0.2 and 0.1 under "111", [capital_social] is
    0.30000000000000004 and [reserves] 0.3, their sum
    0.6000000000000001, while [capitaux_propres_retraites] adds the
    three entries in ledger order and is 0.6, under either version of
    [sum]. *)
Lemma capital_reserves_contre_exemple :
  Binary64.capitaux_different Binary64.sum_gauche
  /\ Binary64.capitaux_different Binary64.sum_compense.
Proof.
  split;
    (split; [split; [repeat constructor | vm_compute; reflexivity]|]);
    eexists; (split; [vm_compute; reflexivity|]);
    repeat split; vm_compute; reflexivity.
Qed.

(** C10, as the code has it.  On every dataset,
    [capitaux_propres_retraites] is the sum of the amounts of the class-1
    credit entries whose code starts with "11"; [capital_social] and
    [reserves] are the sums of two lists whose amounts are, between them,
    those same amounts, each once; so [capital_social + reserves] equals
    [capitaux_propres_retraites] when the additions are exact, and in
    binary64 only up to rounding. *)
Theorem capital_reserves_memes_montants
  (sum : list float -> float) (d : Binary64.JeuDonnees.t) :
  let ls := Binary64.JeuDonnees.lignes d in
  let l111 := Binary64.JeuDonnees.montants
                (Binary64.classe_sens_prefixe 1 CREDIT "111") ls in
  let lres := Binary64.JeuDonnees.montants Binary64.reserve ls in
  let tous := Binary64.JeuDonnees.montants
                (Binary64.classe_sens_prefixe 1 CREDIT "11") ls in
  exists p,
    Binary64.calculer_patrimoine sum d = Py.ret p
    /\ Binary64.PatrimoineEntreprise.capitaux_propres_retraites p = sum tous
    /\ Binary64.BilanFinancier.capital_social
         (Binary64.calculer_bilan_financier sum d) = sum l111
    /\ Binary64.BilanFinancier.reserves
         (Binary64.calculer_bilan_financier sum d) = sum lres
    /\ Permutation tous (l111 ++ lres)
    /\ Py.sum (map Binary64.valeur tous)
       == Py.sum (map Binary64.valeur l111) + Py.sum (map Binary64.valeur lres).
Proof.
  intros ls l111 lres tous.
  pose proof (capitaux_memes_montants ls) as Hp. fold l111 lres tous in Hp.
  eexists. split; [apply calculer_patrimoine_binary64_ret|].
  cbn [Binary64.PatrimoineEntreprise.capitaux_propres_retraites
       Binary64.calculer_bilan_financier
       Binary64.BilanFinancier.capital_social
       Binary64.BilanFinancier.reserves].
  repeat (split; [reflexivity|]). split; [exact Hp|].
  rewrite (sum_perm _ _ (Permutation_map Binary64.valeur Hp)).
  rewrite map_app, sum_app. reflexivity.
Qed.
